(** * HDT-SIMULATOR: the calculation core of [src/index.tsx]

    A shallow embedding of the three calculation modules of the
    hydrometallurgical digital twin (the solvent-extraction stage, the
    setpoint optimizer and the Th/U compliance check) and of the dashboard
    around them, together with the properties its specification states
    about them.

    Numbers.  A TypeScript [number] is an IEEE 754 binary64 value, and the
    file embeds the calculation modules twice.

    - Module [B64] computes as the engine does: numbers are the binary64
      values of the standard library's [SpecFloat], with rounding to
      nearest, overflow to the infinities, signed zeros and NaN.  What the
      specification says about computed values (formulas, rounding,
      comparisons, finiteness) is stated and proved on this embedding, in
      module [Binary64].

    - The definitions outside [B64] read the same source lines in exact
      arithmetic: a number is NaN or a rational, and no operation rounds.
      They carry the properties that do not depend on how the operations
      round, such as which keys a result has, which inputs a result
      depends on, and how the dashboard's state evolves. *)

From stdpp Require Import gmap strings.
From Stdlib Require Import QArith Qpower Qround Qabs Qminmax Lqa.
From Stdlib Require Import SpecFloat.

Local Open Scope Q_scope.

(** * The calculation modules in binary64 *)

(** ** Binary64 numbers and the built-ins the source calls

    A number is an IEEE 754 binary64 value: a signed zero, a signed
    infinity, NaN, or [(-1)^s * m * 2^e].  The four operations round to
    nearest, ties to even, and overflow to an infinity. *)

Module B64.

Definition prec : Z := 53.
Definition emax : Z := 1024.

Abbreviation number := spec_float.

(** A property read [obj[key]] yields [undefined] ([None]) for a missing key. *)
Abbreviation value := (option number).

Definition add : number -> number -> number := SFadd prec emax.
Definition sub : number -> number -> number := SFsub prec emax.
Definition mul : number -> number -> number := SFmul prec emax.
Definition div : number -> number -> number := SFdiv prec emax.

(** Unary minus. *)
Definition neg : number -> number := SFopp.

(** [x < y] and [x > y]: every comparison with NaN is false, and the two
    zeros are equal. *)
Definition lt (x y : number) : bool := SFltb x y.
Definition gt (x y : number) : bool := SFltb y x.

Definition Number_isNaN (x : number) : bool :=
  match x with S754_nan => true | _ => false end.

(** ToBoolean on a number: NaN and the two zeros are falsy. *)
Definition truthy (x : number) : bool :=
  match x with S754_nan | S754_zero _ => false | _ => true end.

(** [v || d], where [v] may be [undefined]. *)
Definition or_else (v : value) (d : number) : number :=
  match v with
  | Some x => if truthy x then x else d
  | None => d
  end.

(** [Math.max] and [Math.min] of two numbers: NaN if either is NaN, and
    [+0] counts as larger than [-0]. *)
Definition Math_max (x y : number) : number :=
  match SFcompare x y with
  | None => S754_nan
  | Some Lt => y
  | Some Gt => x
  | Some Eq => match x with S754_zero true => y | _ => x end
  end.

Definition Math_min (x y : number) : number :=
  match SFcompare x y with
  | None => S754_nan
  | Some Lt => x
  | Some Gt => y
  | Some Eq => match x with S754_zero false => y | _ => x end
  end.

Definition Math_abs : number -> number := SFabs.

(** ToNumber on a property read: [undefined] becomes NaN. *)
Definition ToNumber (v : value) : number := default S754_nan v.

(** The number a decimal literal denotes: [digits / 10^places] rounded to
    the nearest binary64 value.  [decimal 18 1] is the literal [1.8],
    [decimal 1 4] is [0.0001]. *)
Definition decimal (digits : N) (places : nat) : number :=
  match digits with
  | N0 => S754_zero false
  | Npos p => div (S754_finite false p 0)
                  (S754_finite false (Z.to_pos (10 ^ Z.of_nat places)) 0)
  end.

Definition zero : number := S754_zero false.

(** The exact value of a finite number (0 for the others). *)
Definition toQ (x : number) : Q :=
  match x with
  | S754_finite s m e =>
      (if s then - inject_Z (Zpos m) else inject_Z (Zpos m)) * 2 ^ e
  | _ => 0
  end.

(** The text [toFixed] produces: an optional minus sign and the decimal
    digits of [digits] with the point before the last [places] of them, or,
    for a number that is not finite or is at least 1e21 in magnitude, the
    text of [Number::toString], which reads back as the number itself. *)
Inductive numeral : Type :=
| ToString (x : number) : numeral
| Decimal (negative : bool) (digits : N) (places : nat) : numeral.

(** [Number.prototype.toFixed]: for [0 <= a < 1e21] the integer [n] with
    [n / 10^f] closest to the exact value [a], the larger one on a tie; a
    negative number is printed as a minus sign followed by the digits of
    its magnitude. *)
Definition nearest (a : Q) (f : nat) : N :=
  Z.to_N (Qfloor (a * inject_Z (10 ^ Z.of_nat f) + (1 # 2))).

Definition toFixed (x : number) (f : nat) : numeral :=
  match x with
  | S754_zero _ => Decimal false 0 f
  | S754_finite s m e =>
      let a := Qabs (toQ x) in
      if Qle_bool (inject_Z (10 ^ 21)) a then ToString x
      else Decimal s (nearest a f) f
  | _ => ToString x
  end.

(** [parseFloat] on such a text. *)
Definition parseFloat (t : numeral) : number :=
  match t with
  | ToString x => x
  | Decimal negative digits places =>
      let x := decimal digits places in
      if negative then neg x else x
  end.

(** ** The result types of the source *)

Record SimulationResult : Type := {
  aqOut : gmap string number;
  orgOut : gmap string number
}.

Record OptimizationResult : Type := {
  new_pH_setpoint : number;
  action : string;
  predicted_efficiency : number
}.

Record ComplianceResult : Type := {
  total_conc_gl : number;
  is_compliant : bool;
  finding : string
}.

(** ** Module 1: the solvent-extraction stage *)

Definition targetElements : list string := ["Nd"; "Fe"; "Th"; "U"]%string.

(** The locals of one run of the callback of [targetElements.forEach]. *)
Record locals : Type := {
  Cin_aq : number;
  Cin_org : number;
  D : number;
  denominator : number;
  Cout_aq : number;
  Cout_org : number
}.

Definition equilibrium
    (aq_in_conc org_in_conc : gmap string number) (safeR : number)
    (D_values : gmap string number) (el : string) : locals :=
  let Cin_aq := Math_max zero (or_else (aq_in_conc !! el) zero) in
  let Cin_org := Math_max zero (or_else (org_in_conc !! el) zero) in
  let D := Math_max zero (or_else (D_values !! el) zero) in
  let denominator := add (decimal 1 0) (mul safeR D) in
  let Cout_aq := div (add Cin_aq (mul safeR Cin_org)) denominator in
  let Cout_org := mul D Cout_aq in
  {| Cin_aq := Cin_aq; Cin_org := Cin_org; D := D;
     denominator := denominator; Cout_aq := Cout_aq; Cout_org := Cout_org |}.

(** The callback itself; [out] holds the two objects [aqOut] and [orgOut]
    it assigns into. *)
Definition forEach_body
    (aq_in_conc org_in_conc : gmap string number) (safeR : number)
    (D_values : gmap string number)
    (out : SimulationResult) (el : string) : SimulationResult :=
  let l := equilibrium aq_in_conc org_in_conc safeR D_values el in
  {| aqOut := <[el := parseFloat (toFixed (Cout_aq l) 4)]> (aqOut out);
     orgOut := <[el := parseFloat (toFixed (Cout_org l) 4)]> (orgOut out) |}.

(** The sanitized phase ratio. *)
Definition safeR (phase_ratio : number) : number :=
  let rVal := if Number_isNaN phase_ratio then decimal 10 1 else phase_ratio in
  Math_max (decimal 1 4) rVal.

Definition simulate_sx_stage
    (aq_in_conc org_in_conc : gmap string number) (phase_ratio : number)
    (D_values : gmap string number) : SimulationResult :=
  let safeR := safeR phase_ratio in
  foldl (forEach_body aq_in_conc org_in_conc safeR D_values)
        {| aqOut := ∅; orgOut := ∅ |} targetElements.

(** ** Module 2: the setpoint optimizer

    [Math_random] is the value the call [Math.random()] returns; it is
    read only when [deterministic] is false.  A defaulted argument is
    [None] when the caller leaves it out.  ECMAScript leaves the value of
    [Math.pow] to the implementation (an approximation of the power), so
    the function the engine provides is an argument, [Math_pow]. *)

Section Optimizer.
Variable Math_pow : number -> number -> number.

Definition noise (Math_random : number) (deterministic : bool) : number :=
  if deterministic then zero
  else mul (sub Math_random (decimal 5 1)) (decimal 5 2).

Definition prescriptive_setpoint_optimizer
    (Math_random : number) (current_pH : number)
    (target_optimal_pH : option number) (deterministic : option bool)
    : OptimizationResult :=
  let target_optimal_pH := default (decimal 18 1) target_optimal_pH in
  let deterministic := default false deterministic in
  let cPH := if Number_isNaN current_pH then zero else current_pH in
  let tPH := if Number_isNaN target_optimal_pH then decimal 18 1 else target_optimal_pH in
  let noise := noise Math_random deterministic in
  let efficiency :=
    add (sub (decimal 8 1)
             (mul (decimal 2 1) (Math_pow (sub cPH tPH) (decimal 2 0))))
        noise in
  let delta := sub tPH cPH in
  let correction_step := mul delta (decimal 5 1) in
  let new_pH_setpoint := parseFloat (toFixed (add cPH correction_step) 2) in
  let action :=
    if gt correction_step (decimal 1 2)
    then "Increase Acid/Base Flow (Raise pH)"%string
    else if lt correction_step (neg (decimal 1 2))
         then "Adjust Acid/Base Flow (Lower pH)"%string
         else "Maintain pH"%string in
  {| new_pH_setpoint := new_pH_setpoint;
     action := action;
     predicted_efficiency := Math_max zero (Math_min (decimal 1 0) efficiency) |}.

End Optimizer.

(** A [Math_pow] for the one call of the source, whose exponent is 2: the
    correctly rounded square. *)
Definition square (x exponent : number) : number := mul x x.

(** ** Module 3: the Th/U compliance check *)

Definition check_th_u_compliance
    (th_conc u_conc : number) (limit : option number) : ComplianceResult :=
  let limit := default (decimal 1 1) limit in
  let safeTh := Math_max zero (or_else (Some th_conc) zero) in
  let safeU := Math_max zero (or_else (Some u_conc) zero) in
  let safeLimit := if Number_isNaN limit then decimal 1 1 else limit in
  let total := add safeTh safeU in
  let is_compliant := lt total safeLimit in
  {| total_conc_gl := parseFloat (toFixed total 4);
     is_compliant := is_compliant;
     finding :=
       if is_compliant then "Meets NCMM Th/U safety requirements."%string
       else "EXCEEDS Regulatory Limit. Adjust flowsheet."%string |}.

(** ** The mass-balance check of the test battery

    Test 1.3 of [runAllTests], with its three constants (100, 2 and 2.5 in
    the source) as arguments. *)

Definition mass_balance_check (aqInMass R D : number) : bool :=
  let res3 :=
    simulate_sx_stage {[ "Nd"%string := aqInMass ]} ∅ R {[ "Nd"%string := D ]} in
  let massOut :=
    add (ToNumber (aqOut res3 !! "Nd"%string))
        (mul R (ToNumber (orgOut res3 !! "Nd"%string))) in
  lt (Math_abs (sub massOut aqInMass)) (decimal 1 1).

(** A map with the single key Nd. *)
Definition Nd_only (x : number) : gmap string number := {[ "Nd"%string := x ]}.

End B64.

(** ** The quantities the specification names, in binary64 *)

Module Spec64.
Import B64.

(** A concentration or coefficient read from a map, with a missing key,
    NaN, zero and negative values clamped to [+0]. *)
Definition clamp0 (v : value) : number :=
  match v with
  | Some x => if lt zero x then x else zero
  | None => zero
  end.

(** [R_safe = max(1e-4, isNaN(phaseRatio) ? 1.0 : phaseRatio)]. *)
Definition R_safe (phaseRatio : number) : number :=
  let r := if Number_isNaN phaseRatio then decimal 10 1 else phaseRatio in
  if lt (decimal 1 4) r then r else decimal 1 4.

(** Rounding to [d] decimal places: the number is printed with [d]
    decimals and read back. *)
Definition round_dp (d : nat) (x : number) : number := parseFloat (toFixed x d).

(** [r] is what rounding [x] to [d] decimals should give: the number
    denoted by a decimal with [d] places that lies within half a unit of
    the last place of the exact value of [x], with the sign of [x]. *)
Definition nearest_decimal (d : nat) (x r : number) : Prop :=
  exists n : N,
    r = (match x with
         | S754_finite true _ _ => neg (decimal n d)
         | _ => decimal n d
         end) /\
    Qabs (inject_Z (Z.of_N n) / inject_Z (10 ^ Z.of_nat d) - Qabs (toQ x))
      <= (1 # 2) / inject_Z (10 ^ Z.of_nat d).

(** [clamp(x, 0, 1)]. *)
Definition clamp01 (x : number) : number :=
  if Number_isNaN x then x
  else if lt x (decimal 1 0) then (if lt zero x then x else zero)
  else decimal 1 0.

(** The sanitized arguments of the optimizer and of the compliance check:
    a NaN current pH is 0, a NaN or omitted target pH is 1.8, a NaN or
    omitted limit is 0.1. *)
Definition current_of (currentPH : number) : number :=
  if Number_isNaN currentPH then zero else currentPH.

Definition target_of (targetPH : option number) : number :=
  match targetPH with
  | Some t => if Number_isNaN t then decimal 18 1 else t
  | None => decimal 18 1
  end.

Definition limit_of (limit : option number) : number :=
  match limit with
  | Some l => if Number_isNaN l then decimal 1 1 else l
  | None => decimal 1 1
  end.

(** [x <= y]. *)
Definition le (x y : number) : bool := SFleb x y.

(** A real number: a zero or a finite value. *)
Definition real (x : number) : bool :=
  match x with S754_zero _ | S754_finite _ _ _ => true | _ => false end.

(** An argument of the kind the specification speaks of: a real number or
    NaN, not an infinity; for an entry of a map, possibly missing. *)
Definition real_or_NaN (x : number) : bool :=
  match x with S754_infinity _ => false | _ => true end.




(** A number that is not NaN and whose sign bit is [s]. *)
Definition signed (s : bool) (x : number) : Prop :=
  match x with
  | S754_nan => False
  | S754_zero s' | S754_infinity s' | S754_finite s' _ _ => s' = s
  end.

(** The noise lies in [-0.025, 0.025]. *)
Definition noise_in_range (n : number) : bool :=
  le (neg (decimal 25 3)) n && le n (decimal 25 3).

End Spec64.

(** * The calculation modules and the dashboard in exact arithmetic *)

(** ** Numbers and the built-ins the source calls

    A number is NaN, which the source tests for explicitly, or a finite
    value carried as an exact rational. *)

Module JS.

Inductive number : Type :=
| NaN : number
| Fin (q : Q) : number.

(** A property read [obj[key]] yields [undefined] ([None]) for a missing key. *)
Abbreviation value := (option number).

Definition Number_isNaN (x : number) : bool :=
  match x with NaN => true | Fin _ => false end.

(** ToBoolean on a number: [NaN] and zero are falsy. *)
Definition truthy (x : number) : bool :=
  match x with NaN => false | Fin q => negb (Qeq_bool q 0) end.

(** [v || d], where [v] may be [undefined]. *)
Definition or_else (v : value) (d : number) : number :=
  match v with
  | Some x => if truthy x then x else d
  | None => d
  end.

Definition Math_max (x y : number) : number :=
  match x, y with
  | Fin a, Fin b => Fin (Qmax a b)
  | _, _ => NaN
  end.

Definition Math_min (x y : number) : number :=
  match x, y with
  | Fin a, Fin b => Fin (Qmin a b)
  | _, _ => NaN
  end.

Definition add (x y : number) : number :=
  match x, y with Fin a, Fin b => Fin (a + b) | _, _ => NaN end.

Definition sub (x y : number) : number :=
  match x, y with Fin a, Fin b => Fin (a - b) | _, _ => NaN end.

Definition mul (x y : number) : number :=
  match x, y with Fin a, Fin b => Fin (a * b) | _, _ => NaN end.

(** A quotient by zero is not a finite number in JavaScript; the model has
    one non-finite value, so it answers [NaN] there. *)
Definition div (x y : number) : number :=
  match x, y with
  | Fin a, Fin b => if Qeq_bool b 0 then NaN else Fin (a / b)
  | _, _ => NaN
  end.

(** [Math.pow(x, n)] at a literal natural exponent; [Math.pow(x, 0)] is 1
    for every [x], [NaN] included. *)
Definition Math_pow (x : number) (n : N) : number :=
  if N.eqb n 0 then Fin 1
  else match x with Fin a => Fin (a ^ Z.of_N n) | NaN => NaN end.

(** [x < y] and [x > y]: every comparison with [NaN] is false. *)
Definition lt (x y : number) : bool :=
  match x, y with
  | Fin a, Fin b => match a ?= b with Lt => true | _ => false end
  | _, _ => false
  end.

Definition gt (x y : number) : bool := lt y x.

Definition Math_abs (x : number) : number :=
  match x with Fin a => Fin (Qabs a) | NaN => NaN end.

(** ToNumber on a property read: [undefined] becomes [NaN]. *)
Definition ToNumber (v : value) : number := default NaN v.

(** [x === y] where each side is a number or [undefined]. *)
Definition strict_eq (x y : value) : bool :=
  match x, y with
  | Some (Fin a), Some (Fin b) => Qeq_bool a b
  | None, None => true
  | _, _ => false
  end.

(** [s.includes(sub)]. *)
Fixpoint includes (s sub : string) : bool :=
  if String.prefix sub s then true
  else match s with
       | EmptyString => false
       | String _ s' => includes s' sub
       end.

(** The text [toFixed] produces: ["NaN"], or an optional minus sign and the
    decimal digits of [digits] with the point before the last [places] of
    them. *)
Inductive numeral : Type :=
| TextNaN : numeral
| Decimal (negative : bool) (digits : Z) (places : nat) : numeral.

(** [Number.prototype.toFixed]: for [x >= 0] the integer [n] with
    [n / 10^f] closest to [x], the larger one on a tie; a negative [x] is
    printed as a minus sign followed by the digits of [-x].  (Above 1e21
    the method prints the number itself; a binary64 value that large is an
    integer, which rounding to [f] places leaves unchanged.) *)
Definition nearest (x : Q) (f : nat) : Z :=
  Qfloor (x * inject_Z (10 ^ Z.of_nat f) + (1 # 2)).

Definition toFixed (x : number) (f : nat) : numeral :=
  match x with
  | NaN => TextNaN
  | Fin q =>
      if lt x (Fin 0) then Decimal true (nearest (- q) f) f
      else Decimal false (nearest q f) f
  end.

(** [parseFloat] on such a text. *)
Definition parseFloat (s : numeral) : number :=
  match s with
  | TextNaN => NaN
  | Decimal negative digits places =>
      let n := if negative then (- digits)%Z else digits in
      Fin (Qred (n # Z.to_pos (10 ^ Z.of_nat places)))
  end.

Coercion Fin : Q >-> number.

Declare Scope js_scope.
Delimit Scope js_scope with js.
Bind Scope js_scope with number.
Infix "+" := add : js_scope.
Infix "-" := sub : js_scope.
Infix "*" := mul : js_scope.
Infix "/" := div : js_scope.
Infix "<" := lt : js_scope.
Infix ">" := gt : js_scope.
Infix "||" := or_else : js_scope.

End JS.

Import JS.

(** ** The result types of the source *)

Record SimulationResult : Type := {
  aqOut : gmap string number;
  orgOut : gmap string number
}.

Record OptimizationResult : Type := {
  new_pH_setpoint : number;
  action : string;
  predicted_efficiency : number
}.

Record ComplianceResult : Type := {
  total_conc_gl : number;
  is_compliant : bool;
  finding : string
}.

(** ** Module 1: the solvent-extraction stage *)

Definition targetElements : list string := ["Nd"; "Fe"; "Th"; "U"]%string.

(** The locals of one run of the callback of [targetElements.forEach]. *)
Record locals : Type := {
  Cin_aq : number;
  Cin_org : number;
  D : number;
  denominator : number;
  Cout_aq : number;
  Cout_org : number
}.

Definition equilibrium
    (aq_in_conc org_in_conc : gmap string number) (safeR : number)
    (D_values : gmap string number) (el : string) : locals :=
  let Cin_aq := Math_max 0 (aq_in_conc !! el || 0) in
  let Cin_org := Math_max 0 (org_in_conc !! el || 0) in
  let D := Math_max 0 (D_values !! el || 0) in
  let denominator := (1 + safeR * D)%js in
  let Cout_aq := ((Cin_aq + safeR * Cin_org) / denominator)%js in
  let Cout_org := (D * Cout_aq)%js in
  {| Cin_aq := Cin_aq; Cin_org := Cin_org; D := D;
     denominator := denominator; Cout_aq := Cout_aq; Cout_org := Cout_org |}.

(** The callback itself; [out] holds the two objects [aqOut] and [orgOut]
    it assigns into. *)
Definition forEach_body
    (aq_in_conc org_in_conc : gmap string number) (safeR : number)
    (D_values : gmap string number)
    (out : SimulationResult) (el : string) : SimulationResult :=
  let l := equilibrium aq_in_conc org_in_conc safeR D_values el in
  {| aqOut := <[el := parseFloat (toFixed (Cout_aq l) 4)]> (aqOut out);
     orgOut := <[el := parseFloat (toFixed (Cout_org l) 4)]> (orgOut out) |}.

(** The sanitized phase ratio. *)
Definition safeR (phase_ratio : number) : number :=
  let rVal := if Number_isNaN phase_ratio then Fin 1.0 else phase_ratio in
  Math_max 0.0001 rVal.

Definition simulate_sx_stage
    (aq_in_conc org_in_conc : gmap string number) (phase_ratio : number)
    (D_values : gmap string number) : SimulationResult :=
  let safeR := safeR phase_ratio in
  foldl (forEach_body aq_in_conc org_in_conc safeR D_values)
        {| aqOut := ∅; orgOut := ∅ |} targetElements.

(** ** Module 2: the setpoint optimizer

    [Math_random] is the value the call [Math.random()] returns, a number
    in [0, 1); it is read only when [deterministic] is false.  A defaulted
    parameter is [None] when the caller leaves it out. *)

Definition noise (Math_random : Q) (deterministic : bool) : number :=
  if deterministic then Fin 0 else ((Math_random - 0.5) * 0.05)%js.

Definition prescriptive_setpoint_optimizer
    (Math_random : Q) (current_pH : number)
    (target_optimal_pH : option number) (deterministic : option bool)
    : OptimizationResult :=
  let target_optimal_pH := default (Fin 1.8) target_optimal_pH in
  let deterministic := default false deterministic in
  let cPH := if Number_isNaN current_pH then Fin 0 else current_pH in
  let tPH := if Number_isNaN target_optimal_pH then Fin 1.8 else target_optimal_pH in
  let noise := noise Math_random deterministic in
  let efficiency := (0.8 - 0.2 * Math_pow (cPH - tPH) 2 + noise)%js in
  let delta := (tPH - cPH)%js in
  let correction_step := (delta * 0.5)%js in
  let new_pH_setpoint := parseFloat (toFixed (cPH + correction_step) 2) in
  let action :=
    if (correction_step > 0.01)%js then "Increase Acid/Base Flow (Raise pH)"%string
    else if (correction_step < - 0.01)%js then "Adjust Acid/Base Flow (Lower pH)"%string
    else "Maintain pH"%string in
  {| new_pH_setpoint := new_pH_setpoint;
     action := action;
     predicted_efficiency := Math_max 0 (Math_min 1 efficiency) |}.

(** ** Module 3: the Th/U compliance check *)

Definition check_th_u_compliance
    (th_conc u_conc : number) (limit : option number) : ComplianceResult :=
  let limit := default (Fin 0.1) limit in
  let safeTh := Math_max 0 (Some th_conc || 0) in
  let safeU := Math_max 0 (Some u_conc || 0) in
  let safeLimit := if Number_isNaN limit then Fin 0.1 else limit in
  let total := (safeTh + safeU)%js in
  let is_compliant := (total < safeLimit)%js in
  {| total_conc_gl := parseFloat (toFixed total 4);
     is_compliant := is_compliant;
     finding :=
       if is_compliant then "Meets NCMM Th/U safety requirements."%string
       else "EXCEEDS Regulatory Limit. Adjust flowsheet."%string |}.

(** ** The test battery

    [runAllTests] with the module, the name and the condition of each
    assertion; the texts [expected] and [actual], which only report, are
    left out.  [random i] is the value of the [i]-th call of
    [Math.random()]. *)

Record TestResult : Type := {
  module : string;
  name : string;
  passed : bool
}.

(** A map with the single key Nd, and the empty map. *)
Definition Nd_only (x : Q) : gmap string number := {[ "Nd"%string := Fin x ]}.
Definition no_feed : gmap string number := ∅.

(** Test 1.3. *)
Definition mass_balance_check : bool :=
  let aqInMass : number := 100 in
  let R : number := 2 in
  let res3 :=
    simulate_sx_stage {[ "Nd"%string := aqInMass ]} no_feed R (Nd_only 2.5) in
  let massOut :=
    (ToNumber (aqOut res3 !! "Nd"%string) + R * ToNumber (orgOut res3 !! "Nd"%string))%js in
  (Math_abs (massOut - aqInMass) < 0.1)%js.

(** Test 2.3: fifty samples with noise. *)
Definition efficiency_in_bounds (random : nat -> Q) : bool :=
  foldl
    (fun inBounds i =>
       let res :=
         prescriptive_setpoint_optimizer (random i) 1.8 (Some (Fin 1.8)) (Some false) in
       if (predicted_efficiency res < 0)%js || (predicted_efficiency res > 1)%js
       then false else inBounds)
    true (seq 0 50).

Definition runAllTests (random : nat -> Q) : list TestResult :=
  let assert (module name : string) (condition : bool) :=
    {| module := module; name := name; passed := condition |} in
  let res1 := simulate_sx_stage (Nd_only 10) no_feed 1 (Nd_only 1) in
  let res2 := simulate_sx_stage (Nd_only 10) no_feed 1 (Nd_only 9) in
  let res4 := simulate_sx_stage (Nd_only 5) no_feed 1 (Nd_only 1) in
  let res5 := simulate_sx_stage (Nd_only (-10)) no_feed 1 (Nd_only 1) in
  let opt1 := prescriptive_setpoint_optimizer (random 0%nat) 1.0 (Some (Fin 2.0)) (Some true) in
  let opt2 := prescriptive_setpoint_optimizer (random 0%nat) 2.0 (Some (Fin 1.0)) (Some true) in
  let comp1 := check_th_u_compliance 0.04 0.05 (Some (Fin 0.1)) in
  let comp2 := check_th_u_compliance 0.06 0.05 (Some (Fin 0.1)) in
  let comp3 := check_th_u_compliance 0.05 0.05 (Some (Fin 0.1)) in
  let comp4 := check_th_u_compliance 0.1 0.2 (Some (Fin 0.5)) in
  let comp5 := check_th_u_compliance (-5) 0.2 (Some (Fin 0.5)) in
  [ assert "Thermodynamic Core" "Basic Separation (D=1, R=1)"
      (strict_eq (aqOut res1 !! "Nd"%string) (Some (Fin 5))
       && strict_eq (orgOut res1 !! "Nd"%string) (Some (Fin 5)));
    assert "Thermodynamic Core" "High Extraction (D=9)"
      (strict_eq (aqOut res2 !! "Nd"%string) (Some (Fin 1))
       && strict_eq (orgOut res2 !! "Nd"%string) (Some (Fin 9)));
    assert "Thermodynamic Core" "Mass Balance Conservation" mass_balance_check;
    assert "Thermodynamic Core" "Missing Input Key Handling"
      (strict_eq (aqOut res4 !! "Th"%string) (Some (Fin 0)));
    assert "Thermodynamic Core" "Negative Input Clamping"
      (strict_eq (aqOut res5 !! "Nd"%string) (Some (Fin 0)));
    assert "AI Optimizer" "Setpoint Logic (Raise pH)"
      (strict_eq (Some (new_pH_setpoint opt1)) (Some (Fin 1.5)));
    assert "AI Optimizer" "Action Text (Raise)"
      (includes (action opt1) "Increase");
    assert "AI Optimizer" "Setpoint Logic (Lower pH)"
      (strict_eq (Some (new_pH_setpoint opt2)) (Some (Fin 1.5)));
    assert "AI Optimizer" "Action Text (Lower)"
      (includes (action opt2) "Lower" || includes (action opt2) "Adjust");
    assert "AI Optimizer" "Efficiency Bounds (0-1)" (efficiency_in_bounds random);
    assert "Compliance Simulator" "Compliant Case (< Limit)"
      (Bool.eqb (is_compliant comp1) true);
    assert "Compliance Simulator" "Non-Compliant Case (> Limit)"
      (Bool.eqb (is_compliant comp2) false);
    assert "Compliance Simulator" "Boundary Case (Equal to Limit)"
      (Bool.eqb (is_compliant comp3) false);
    assert "Compliance Simulator" "Floating Point Precision Display"
      (strict_eq (Some (total_conc_gl comp4)) (Some (Fin 0.3)));
    assert "Compliance Simulator" "Negative Input Safety"
      (strict_eq (Some (total_conc_gl comp5)) (Some (Fin 0.2))) ]%string.

(** ** The diagnostics modal

    The two figures [TestRunnerModal] shows for a list of results. *)

Definition passedCount (results : list TestResult) : nat :=
  length (filter (fun r => passed r = true) results).

Definition allPassed (results : list TestResult) : bool :=
  Nat.eqb (passedCount results) (length results).

(** ** The input field's range check

    The flags [InputField] computes before it renders.  The message is
    the empty text, or the prefix "Min: " or "Max: " followed by the bound;
    the constructors below stand for these three texts. *)

Inductive message : Type :=
| NoMessage : message
| MinMessage (min : number) : message
| MaxMessage (max : number) : message.

Record FieldFlags : Type := {
  isNaNValue : bool;
  isBelowMin : bool;
  isAboveMax : bool;
  isError : bool;
  errorMsg : message
}.

Definition InputField (value : number) (min max : option number) : FieldFlags :=
  let isNaNValue := Number_isNaN value in
  let isBelowMin :=
    match min with
    | Some min => negb isNaNValue && (value < min)%js
    | None => false
    end in
  let isAboveMax :=
    match max with
    | Some max => negb isNaNValue && (value > max)%js
    | None => false
    end in
  let isError := isBelowMin || isAboveMax in
  let errorMsg :=
    if isBelowMin then MinMessage (default NaN min)
    else if isAboveMax then MaxMessage (default NaN max)
    else NoMessage in
  {| isNaNValue := isNaNValue; isBelowMin := isBelowMin;
     isAboveMax := isAboveMax; isError := isError; errorMsg := errorMsg |}.

(** ** The efficiency chart

    The geometry of [EfficiencyChart]: the plot area, the two scales and
    the positions of the markers.  The curve itself, which the component
    prints point by point into a path text, is not part of the model. *)

Module Chart.

Definition width : number := 600.
Definition height : number := 280.

Module margin.
Definition top : number := 40.
Definition right : number := 40.
Definition bottom : number := 40.
Definition left : number := 50.
End margin.

Definition graphWidth : number := (width - margin.left - margin.right)%js.
Definition graphHeight : number := (height - margin.top - margin.bottom)%js.

Definition minPH : number := 0.0.
Definition maxPH : number := 3.5.
Definition minEff : number := 0.0.
Definition maxEff : number := 1.0.

Definition getX (ph : number) : number :=
  (margin.left + ((ph - minPH) / (maxPH - minPH)) * graphWidth)%js.

Definition getY (eff : number) : number :=
  (margin.top + graphHeight - ((eff - minEff) / (maxEff - minEff)) * graphHeight)%js.

Definition clampPH (p : number) : number := Math_max minPH (Math_min maxPH p).

Record Points : Type := {
  currentEff : number;
  recEff : number;
  cxCur : number;
  cyCur : number;
  cxRec : number;
  cyRec : number;
  cxTarget : number;
  arrow : bool
}.

Definition EfficiencyChart
    (currentPH recommendedPH targetOptimalPH : number) : Points :=
  let cPH := if Number_isNaN currentPH then Fin 0 else currentPH in
  let rPH := if Number_isNaN recommendedPH then Fin 0 else recommendedPH in
  let tPH := if Number_isNaN targetOptimalPH then Fin 1.8 else targetOptimalPH in
  let currentEff := Math_max 0 (0.8 - 0.2 * Math_pow (cPH - tPH) 2)%js in
  let recEff := Math_max 0 (0.8 - 0.2 * Math_pow (rPH - tPH) 2)%js in
  let cxCur := getX (clampPH cPH) in
  let cyCur := getY currentEff in
  let cxRec := getX (clampPH rPH) in
  let cyRec := getY recEff in
  let cxTarget := getX (clampPH tPH) in
  {| currentEff := currentEff; recEff := recEff;
     cxCur := cxCur; cyCur := cyCur; cxRec := cxRec; cyRec := cyRec;
     cxTarget := cxTarget;
     arrow := (Math_abs (cxRec - cxCur) > 5)%js |}.

End Chart.

(** ** The dashboard

    The state of [App] and the handlers that change it.  [now] and [time]
    are the values of [Date.now()] and of
    [new Date().toLocaleTimeString()] at the call. *)

Module Hist.

Record Inputs : Type := {
  aqIn : gmap string number;
  phaseRatio : number;
  currentPH : number;
  targetPH : number
}.

Record Outputs : Type := {
  th_u_total : number;
  is_compliant : bool;
  efficiency : number
}.

Record HistoryEntry : Type := {
  id : number;
  timestamp : string;
  inputs : Inputs;
  outputs : Outputs
}.

End Hist.

Module App.

Record State : Type := {
  aqIn : gmap string number;
  orgIn : gmap string number;
  phaseRatio : number;
  dValues : gmap string number;
  currentPH : number;
  targetPH : number;
  regLimit : number;
  showTests : bool;
  history : list Hist.HistoryEntry;
  darkMode : bool;
  simulationResults : option SimulationResult;
  complianceResults : option ComplianceResult;
  optimizationResults : option OptimizationResult
}.

(** The state [App] starts from. *)
Definition initial : State :=
  {| aqIn := {[ "Nd" := Fin 5.0; "Th" := Fin 0.1; "Fe" := Fin 0.5; "U" := Fin 0.02 ]}%string;
     orgIn := {[ "Nd" := Fin 0.0; "Th" := Fin 0.0; "Fe" := Fin 0.0; "U" := Fin 0.0 ]}%string;
     phaseRatio := 1.0;
     dValues := {[ "Nd" := Fin 0.8; "Th" := Fin 10.0; "Fe" := Fin 5.0; "U" := Fin 12.0 ]}%string;
     currentPH := 1.5;
     targetPH := 1.8;
     regLimit := 0.1;
     showTests := false;
     history := [];
     darkMode := false;
     simulationResults := None;
     complianceResults := None;
     optimizationResults := None |}.

Definition runSimulation (Math_random : Q) (st : State) : State :=
  let simRes :=
    simulate_sx_stage (aqIn st) (orgIn st) (phaseRatio st) (dValues st) in
  let thConc := (aqOut simRes !! "Th"%string || 0)%js in
  let uConc := (aqOut simRes !! "U"%string || 0)%js in
  let compRes := check_th_u_compliance thConc uConc (Some (regLimit st)) in
  let optRes :=
    prescriptive_setpoint_optimizer Math_random (currentPH st)
      (Some (targetPH st)) None in
  {| aqIn := aqIn st; orgIn := orgIn st; phaseRatio := phaseRatio st;
     dValues := dValues st; currentPH := currentPH st; targetPH := targetPH st;
     regLimit := regLimit st; showTests := showTests st;
     history := history st; darkMode := darkMode st;
     simulationResults := Some simRes;
     complianceResults := Some compRes;
     optimizationResults := Some optRes |}.

Definition toggleDarkMode (st : State) : State :=
  {| aqIn := aqIn st; orgIn := orgIn st; phaseRatio := phaseRatio st;
     dValues := dValues st; currentPH := currentPH st; targetPH := targetPH st;
     regLimit := regLimit st; showTests := showTests st;
     history := history st; darkMode := negb (darkMode st);
     simulationResults := simulationResults st;
     complianceResults := complianceResults st;
     optimizationResults := optimizationResults st |}.

Definition updateAqIn (key : string) (val : number) (st : State) : State :=
  {| aqIn := <[key := val]> (aqIn st);
     orgIn := orgIn st; phaseRatio := phaseRatio st;
     dValues := dValues st; currentPH := currentPH st; targetPH := targetPH st;
     regLimit := regLimit st; showTests := showTests st;
     history := history st; darkMode := darkMode st;
     simulationResults := simulationResults st;
     complianceResults := complianceResults st;
     optimizationResults := optimizationResults st |}.

Definition updateD (key : string) (val : number) (st : State) : State :=
  {| aqIn := aqIn st; orgIn := orgIn st; phaseRatio := phaseRatio st;
     dValues := <[key := val]> (dValues st);
     currentPH := currentPH st; targetPH := targetPH st;
     regLimit := regLimit st; showTests := showTests st;
     history := history st; darkMode := darkMode st;
     simulationResults := simulationResults st;
     complianceResults := complianceResults st;
     optimizationResults := optimizationResults st |}.

(** The setters of [useState] that the input fields and buttons call
    directly. *)
Definition setPhaseRatio (val : number) (st : State) : State :=
  {| aqIn := aqIn st; orgIn := orgIn st; phaseRatio := val;
     dValues := dValues st; currentPH := currentPH st; targetPH := targetPH st;
     regLimit := regLimit st; showTests := showTests st;
     history := history st; darkMode := darkMode st;
     simulationResults := simulationResults st;
     complianceResults := complianceResults st;
     optimizationResults := optimizationResults st |}.

Definition setCurrentPH (val : number) (st : State) : State :=
  {| aqIn := aqIn st; orgIn := orgIn st; phaseRatio := phaseRatio st;
     dValues := dValues st; currentPH := val; targetPH := targetPH st;
     regLimit := regLimit st; showTests := showTests st;
     history := history st; darkMode := darkMode st;
     simulationResults := simulationResults st;
     complianceResults := complianceResults st;
     optimizationResults := optimizationResults st |}.

Definition setTargetPH (val : number) (st : State) : State :=
  {| aqIn := aqIn st; orgIn := orgIn st; phaseRatio := phaseRatio st;
     dValues := dValues st; currentPH := currentPH st; targetPH := val;
     regLimit := regLimit st; showTests := showTests st;
     history := history st; darkMode := darkMode st;
     simulationResults := simulationResults st;
     complianceResults := complianceResults st;
     optimizationResults := optimizationResults st |}.

Definition setRegLimit (val : number) (st : State) : State :=
  {| aqIn := aqIn st; orgIn := orgIn st; phaseRatio := phaseRatio st;
     dValues := dValues st; currentPH := currentPH st; targetPH := targetPH st;
     regLimit := val; showTests := showTests st;
     history := history st; darkMode := darkMode st;
     simulationResults := simulationResults st;
     complianceResults := complianceResults st;
     optimizationResults := optimizationResults st |}.

Definition setShowTests (val : bool) (st : State) : State :=
  {| aqIn := aqIn st; orgIn := orgIn st; phaseRatio := phaseRatio st;
     dValues := dValues st; currentPH := currentPH st; targetPH := targetPH st;
     regLimit := regLimit st; showTests := val;
     history := history st; darkMode := darkMode st;
     simulationResults := simulationResults st;
     complianceResults := complianceResults st;
     optimizationResults := optimizationResults st |}.

Definition captureSnapshot (now : number) (time : string) (st : State) : State :=
  match simulationResults st, complianceResults st, optimizationResults st with
  | Some _, Some complianceResults, Some optimizationResults =>
      let newEntry :=
        {| Hist.id := now;
           Hist.timestamp := time;
           Hist.inputs :=
             {| Hist.aqIn := aqIn st;
                Hist.phaseRatio := phaseRatio st;
                Hist.currentPH := currentPH st;
                Hist.targetPH := targetPH st |};
           Hist.outputs :=
             {| Hist.th_u_total := total_conc_gl complianceResults;
                Hist.is_compliant := is_compliant complianceResults;
                Hist.efficiency := predicted_efficiency optimizationResults |} |} in
      {| aqIn := aqIn st; orgIn := orgIn st; phaseRatio := phaseRatio st;
         dValues := dValues st; currentPH := currentPH st; targetPH := targetPH st;
         regLimit := regLimit st; showTests := showTests st;
         history := newEntry :: history st; darkMode := darkMode st;
         simulationResults := simulationResults st;
         complianceResults := Some complianceResults;
         optimizationResults := Some optimizationResults |}
  | _, _, _ => st
  end.

End App.

(** ** The quantities the specification names *)

Module Spec.

(** A concentration or coefficient read from a map, with a missing key,
    [NaN] and negative values clamped to 0. *)
Definition clamp0 (v : value) : Q :=
  match v with
  | Some (Fin q) => Qmax 0 q
  | _ => 0
  end.

(** [R_safe = max(1e-4, isNaN(phaseRatio) ? 1.0 : phaseRatio)]. *)
Definition R_safe (phaseRatio : number) : Q :=
  Qmax 0.0001 (match phaseRatio with NaN => 1.0 | Fin r => r end).

Definition pow10 (d : nat) : Q := inject_Z (10 ^ Z.of_nat d).

(** Rounding to [d] decimal places, a tie going away from zero. *)
Definition round_dp (d : nat) (x : Q) : Q :=
  match x ?= 0 with
  | Lt => Qred (- inject_Z (Qfloor (- x * pow10 d + (1 # 2))) / pow10 d)
  | _ => Qred (inject_Z (Qfloor (x * pow10 d + (1 # 2))) / pow10 d)
  end.

(** [r] is a decimal with [d] places nearest to [x]. *)
Definition nearest_decimal (d : nat) (x r : Q) : Prop :=
  (exists n : Z, r == inject_Z n / pow10 d) /\
  Qabs (r - x) <= (1 # 2) / pow10 d.

(** [clamp(x, 0, 1)]. *)
Definition clamp01 (x : Q) : Q := Qmax 0 (Qmin 1 x).

(** The sanitized arguments of the optimizer and of the compliance check:
    a [NaN] current pH is 0, a [NaN] or omitted target pH is 1.8, a [NaN]
    or omitted limit is 0.1. *)
Definition current_of (currentPH : number) : Q :=
  match currentPH with NaN => 0 | Fin q => q end.

Definition target_of (targetPH : option number) : Q :=
  match targetPH with Some (Fin q) => q | _ => 1.8 end.

Definition limit_of (limit : option number) : Q :=
  match limit with Some (Fin q) => q | _ => 0.1 end.

End Spec.

Import Spec.

Module StageSpec.

(** The quantities of the specification's model for one species. *)
Section Quantities.
Variables (aqIn orgIn : gmap string number) (phaseRatio : number)
          (Dmap : gmap string number) (s : string).

Definition C_in_aq : Q := clamp0 (aqIn !! s).
Definition C_in_org : Q := clamp0 (orgIn !! s).
Definition D_s : Q := clamp0 (Dmap !! s).
Definition mass_in : Q := C_in_aq + R_safe phaseRatio * C_in_org.
Definition C_out_aq : Q := mass_in / (1 + R_safe phaseRatio * D_s).
Definition C_out_org : Q := D_s * C_out_aq.
End Quantities.

End StageSpec.

Import StageSpec.

(** ** Notions used by the further properties *)

Module Props.

(** A value the stage reads as 0: [NaN], zero or a negative number. *)
Definition reads_as_zero (v : number) : Prop :=
  match v with NaN => True | Fin q => q <= 0 end.

(** Two maps hold the same values for the tracked species, after
    sanitization. *)
Definition same_tracked (m m' : gmap string number) : Prop :=
  forall s, s ∈ targetElements -> clamp0 (m !! s) == clamp0 (m' !! s).

(** What can happen to the dashboard: a call of one of its handlers or
    setters, or a run of the effect that recomputes the results.  Any order
    is allowed, which covers the orders React produces. *)
Inductive event : Type :=
| RunSimulation (Math_random : Q)
| ToggleDarkMode
| UpdateAqIn (key : string) (val : number)
| UpdateD (key : string) (val : number)
| SetPhaseRatio (val : number)
| SetCurrentPH (val : number)
| SetTargetPH (val : number)
| SetRegLimit (val : number)
| SetShowTests (val : bool)
| CaptureSnapshot (now : number) (time : string).

Definition handle (st : App.State) (e : event) : App.State :=
  match e with
  | RunSimulation rnd => App.runSimulation rnd st
  | ToggleDarkMode => App.toggleDarkMode st
  | UpdateAqIn k v => App.updateAqIn k v st
  | UpdateD k v => App.updateD k v st
  | SetPhaseRatio v => App.setPhaseRatio v st
  | SetCurrentPH v => App.setCurrentPH v st
  | SetTargetPH v => App.setTargetPH v st
  | SetRegLimit v => App.setRegLimit v st
  | SetShowTests b => App.setShowTests b st
  | CaptureSnapshot now time => App.captureSnapshot now time st
  end.

Definition is_snapshot (e : event) : bool :=
  match e with CaptureSnapshot _ _ => true | _ => false end.

(** The three results have been computed. *)
Definition has_results (st : App.State) : Prop :=
  is_Some (App.simulationResults st) /\
  is_Some (App.complianceResults st) /\
  is_Some (App.optimizationResults st).

End Props.

Import Props.

(** ** Facts about the number model *)

Lemma pow10_pos d : 0 < pow10 d.
Proof.
  unfold pow10. change 0 with (inject_Z 0). rewrite <- Zlt_Qlt.
  apply Z.pow_pos_nonneg; lia.
Qed.

Lemma Z_pow10_pos (d : nat) : (0 < 10 ^ Z.of_nat d)%Z.
Proof. apply Z.pow_pos_nonneg; lia. Qed.

Lemma Qmake_pow10 (n : Z) (d : nat) :
  n # Z.to_pos (10 ^ Z.of_nat d) == inject_Z n / pow10 d.
Proof.
  rewrite Qmake_Qdiv. unfold pow10.
  rewrite Z2Pos.id by apply Z_pow10_pos. reflexivity.
Qed.

Lemma Qmax_0_zero q : q == 0 -> Qmax 0 q = 0.
Proof.
  intros Hq. unfold Qmax, GenericMinMax.gmax.
  destruct (0 ?= q) eqn:E; try reflexivity.
  apply Qlt_alt in E. rewrite Hq in E. discriminate.
Qed.

Lemma sanitize_clamp0 (v : value) : Math_max 0 (v || 0) = Fin (clamp0 v).
Proof.
  destruct v as [[|q]|]; simpl; try reflexivity.
  destruct (Qeq_bool q 0) eqn:E; simpl; [|reflexivity].
  apply Qeq_bool_iff in E. now rewrite (Qmax_0_zero q E).
Qed.

Lemma clamp0_nonneg v : 0 <= clamp0 v.
Proof.
  destruct v as [[|q]|]; simpl; try apply Qle_refl. apply Q.le_max_l.
Qed.

Lemma safeR_R_safe p : safeR p = Fin (R_safe p).
Proof. destruct p; reflexivity. Qed.

Lemma R_safe_lower p : 0.0001 <= R_safe p.
Proof. apply Q.le_max_l. Qed.

Lemma R_safe_pos p : 0 < R_safe p.
Proof. eapply Qlt_le_trans; [|apply R_safe_lower]. reflexivity. Qed.

Lemma div_Fin a b : ~ b == 0 -> (Fin a / Fin b)%js = Fin (a / b).
Proof.
  intros Hb. simpl. destruct (Qeq_bool b 0) eqn:E; [|reflexivity].
  apply Qeq_bool_iff in E. contradiction.
Qed.

Lemma lt_Fin a b : (Fin a < Fin b)%js = true <-> a < b.
Proof.
  simpl. rewrite Qlt_alt. destruct (a ?= b); split; congruence.
Qed.

Lemma round_dp_comp d x y : x == y -> round_dp d x = round_dp d y.
Proof.
  intros E. unfold round_dp. rewrite E.
  destruct (y ?= 0); apply Qred_complete; rewrite E; reflexivity.
Qed.

Lemma toFixed_parseFloat q d : parseFloat (toFixed (Fin q) d) = Fin (round_dp d q).
Proof.
  unfold toFixed, round_dp, nearest. simpl. fold (pow10 d).
  destruct (q ?= 0); simpl; f_equal; apply Qred_complete;
    rewrite Qmake_pow10; reflexivity.
Qed.

(** [round_dp] yields a nearest decimal. *)

Lemma near_scaled (s x : Q) (n : Z) :
  0 < s ->
  inject_Z n <= x * s + (1 # 2) ->
  x * s + (1 # 2) < inject_Z (n + 1) ->
  Qabs (inject_Z n / s - x) <= (1 # 2) / s.
Proof.
  intros Hs Hlo Hhi. rewrite inject_Z_plus in Hhi.
  change (inject_Z 1) with 1 in Hhi.
  assert (Hs' : ~ s == 0) by (intros E; rewrite E in Hs; discriminate).
  assert (Hi : 0 <= / s) by (apply Qinv_le_0_compat, Qlt_le_weak, Hs).
  setoid_replace (inject_Z n / s - x) with ((inject_Z n - x * s) / s)
    using relation Qeq by (field; exact Hs').
  apply Qabs_Qle_condition. split.
  - setoid_replace (- ((1 # 2) / s)) with ((- (1 # 2)) / s)
      using relation Qeq by (field; exact Hs').
    unfold Qdiv. apply Qmult_le_compat_r; [lra | exact Hi].
  - unfold Qdiv. apply Qmult_le_compat_r; [lra | exact Hi].
Qed.

Lemma floor_bracket (y : Q) :
  inject_Z (Qfloor y) <= y /\ y < inject_Z (Qfloor y + 1).
Proof. split; [apply Qfloor_le | apply Qlt_floor]. Qed.

Lemma nearest_decimal_Qeq d x r r' :
  r == r' -> nearest_decimal d x r' -> nearest_decimal d x r.
Proof.
  intros E [[n Hn] Hb].
  split; [exists n; now rewrite E | now rewrite E].
Qed.

Lemma nearest_up d x :
  nearest_decimal d x (inject_Z (Qfloor (x * pow10 d + (1 # 2))) / pow10 d).
Proof.
  split; [eexists; reflexivity |].
  destruct (floor_bracket (x * pow10 d + (1 # 2))).
  apply near_scaled; auto using pow10_pos.
Qed.

Lemma nearest_down d x :
  nearest_decimal d x
    (- inject_Z (Qfloor (- x * pow10 d + (1 # 2))) / pow10 d).
Proof.
  assert (Hs' : ~ pow10 d == 0)
    by (intros E; pose proof (pow10_pos d) as P; rewrite E in P; discriminate).
  split.
  - exists (- Qfloor (- x * pow10 d + (1 # 2)))%Z.
    rewrite inject_Z_opp. reflexivity.
  - destruct (floor_bracket (- x * pow10 d + (1 # 2))) as [Hlo Hhi].
    pose proof (near_scaled (pow10 d) (- x) _ (pow10_pos d) Hlo Hhi) as H.
    rewrite <- Qabs_opp.
    setoid_replace
      (- (- inject_Z (Qfloor (- x * pow10 d + (1 # 2))) / pow10 d - x))
      with (inject_Z (Qfloor (- x * pow10 d + (1 # 2))) / pow10 d - - x)
      using relation Qeq by (field; exact Hs').
    exact H.
Qed.

Lemma round_dp_nearest d x : nearest_decimal d x (round_dp d x).
Proof.
  unfold round_dp.
  destruct (x ?= 0);
    (eapply nearest_decimal_Qeq; [apply Qred_correct |]);
    auto using nearest_up, nearest_down.
Qed.


Lemma round_dp_zero d x : x == 0 -> round_dp d x = 0.
Proof.
  intros E. rewrite (round_dp_comp d x 0 E). unfold round_dp.
  change (0 ?= 0) with Eq. cbv beta iota.
  assert (Qfloor (0 * pow10 d + (1 # 2)) = 0%Z) as ->.
  { rewrite (Qfloor_comp _ (1 # 2)); [reflexivity | ring]. }
  apply (Qred_complete _ 0). unfold Qdiv. ring.
Qed.

(** ** The stage, species by species *)

Section Stage.
Variables (aq_in_conc org_in_conc : gmap string number)
          (phase_ratio : number) (D_values : gmap string number).

Local Abbreviation body :=
  (forEach_body aq_in_conc org_in_conc (safeR phase_ratio) D_values).
Local Abbreviation eq_of el :=
  (equilibrium aq_in_conc org_in_conc (safeR phase_ratio) D_values el).

Lemma denominator_ge_1 el : 1 <= 1 + R_safe phase_ratio * D_s D_values el.
Proof.
  pose proof (R_safe_pos phase_ratio). pose proof (clamp0_nonneg (D_values !! el)).
  unfold D_s. nra.
Qed.

Lemma denominator_nonzero el : ~ 1 + R_safe phase_ratio * D_s D_values el == 0.
Proof. pose proof (denominator_ge_1 el). lra. Qed.

Lemma equilibrium_locals el :
  eq_of el =
    {| Cin_aq := Fin (C_in_aq aq_in_conc el);
       Cin_org := Fin (C_in_org org_in_conc el);
       D := Fin (D_s D_values el);
       denominator := Fin (1 + R_safe phase_ratio * D_s D_values el);
       Cout_aq := Fin (C_out_aq aq_in_conc org_in_conc phase_ratio D_values el);
       Cout_org := Fin (C_out_org aq_in_conc org_in_conc phase_ratio D_values el) |}.
Proof.
  unfold equilibrium. rewrite !sanitize_clamp0, safeR_R_safe.
  change (Fin 1 + Fin (R_safe phase_ratio) * Fin (clamp0 (D_values !! el)))%js
    with (Fin (1 + R_safe phase_ratio * D_s D_values el)).
  change (Fin (clamp0 (aq_in_conc !! el))
          + Fin (R_safe phase_ratio) * Fin (clamp0 (org_in_conc !! el)))%js
    with (Fin (mass_in aq_in_conc org_in_conc phase_ratio el)).
  rewrite (div_Fin _ _ (denominator_nonzero el)). reflexivity.
Qed.

Lemma forEach_aqOut (l : list string) (out : SimulationResult) (el : string) :
  aqOut (foldl body out l) !! el =
    if decide (el ∈ l)
    then Some (parseFloat (toFixed (Cout_aq (eq_of el)) 4))
    else aqOut out !! el.
Proof.
  revert out. induction l as [|x l IH]; intros out.
  - rewrite decide_False by apply not_elem_of_nil. reflexivity.
  - cbn [foldl]. rewrite IH. destruct (decide (el ∈ l)) as [Hin|Hnin].
    + rewrite decide_True by (apply elem_of_cons; now right). reflexivity.
    + destruct (decide (x = el)) as [->|Hne].
      * rewrite decide_True by apply list_elem_of_here.
        apply lookup_insert_eq.
      * rewrite decide_False
          by (intros [?|?]%elem_of_cons; [congruence | contradiction]).
        now apply lookup_insert_ne.
Qed.

Lemma forEach_orgOut (l : list string) (out : SimulationResult) (el : string) :
  orgOut (foldl body out l) !! el =
    if decide (el ∈ l)
    then Some (parseFloat (toFixed (Cout_org (eq_of el)) 4))
    else orgOut out !! el.
Proof.
  revert out. induction l as [|x l IH]; intros out.
  - rewrite decide_False by apply not_elem_of_nil. reflexivity.
  - cbn [foldl]. rewrite IH. destruct (decide (el ∈ l)) as [Hin|Hnin].
    + rewrite decide_True by (apply elem_of_cons; now right). reflexivity.
    + destruct (decide (x = el)) as [->|Hne].
      * rewrite decide_True by apply list_elem_of_here.
        apply lookup_insert_eq.
      * rewrite decide_False
          by (intros [?|?]%elem_of_cons; [congruence | contradiction]).
        now apply lookup_insert_ne.
Qed.

Lemma simulate_aqOut el :
  aqOut (simulate_sx_stage aq_in_conc org_in_conc phase_ratio D_values) !! el =
    if decide (el ∈ targetElements)
    then Some (Fin (round_dp 4
           (C_out_aq aq_in_conc org_in_conc phase_ratio D_values el)))
    else None.
Proof.
  unfold simulate_sx_stage. cbv zeta. rewrite forEach_aqOut.
  case_decide; [|reflexivity].
  rewrite equilibrium_locals. simpl Cout_aq. now rewrite toFixed_parseFloat.
Qed.

Lemma simulate_orgOut el :
  orgOut (simulate_sx_stage aq_in_conc org_in_conc phase_ratio D_values) !! el =
    if decide (el ∈ targetElements)
    then Some (Fin (round_dp 4
           (C_out_org aq_in_conc org_in_conc phase_ratio D_values el)))
    else None.
Proof.
  unfold simulate_sx_stage. cbv zeta. rewrite forEach_orgOut.
  case_decide; [|reflexivity].
  rewrite equilibrium_locals. simpl Cout_org. now rewrite toFixed_parseFloat.
Qed.

End Stage.

(** ** The error of rounding to four decimals *)



(** ** The stage: tracked species and sign of the outputs *)

Lemma C_out_aq_absent aqIn orgIn phaseRatio Dmap s :
  aqIn !! s = None -> orgIn !! s = None ->
  C_out_aq aqIn orgIn phaseRatio Dmap s == 0.
Proof.
  intros Ha Ho. unfold C_out_aq, mass_in, C_in_aq, C_in_org.
  rewrite Ha, Ho. simpl clamp0. field. apply denominator_nonzero.
Qed.

(** C4: both output maps have exactly the keys Nd, Fe, Th and U, whatever
    the keys of the inputs; a tracked species absent from the two feed maps
    has the value 0 in both outputs, and a key outside the tracked set
    appears in neither.  In particular
    [simulate({Nd:5}, {}, 1, {Nd:1}).aqOut.Th = 0]. *)
Theorem tracked_species_only aqIn orgIn phaseRatio Dmap :
  let r := simulate_sx_stage aqIn orgIn phaseRatio Dmap in
  dom (aqOut r) = list_to_set targetElements /\
  dom (orgOut r) = list_to_set targetElements /\
  (forall s, s ∈ targetElements -> aqIn !! s = None -> orgIn !! s = None ->
     aqOut r !! s = Some (Fin 0) /\ orgOut r !! s = Some (Fin 0)) /\
  (forall s, s ∉ targetElements ->
     aqOut r !! s = None /\ orgOut r !! s = None) /\
  aqOut (simulate_sx_stage (Nd_only 5) no_feed 1 (Nd_only 1))
    !! "Th"%string = Some (Fin 0).
Proof.
  intros r. subst r.
  split; [| split; [| split; [| split]]].
  - apply set_eq. intros k.
    rewrite elem_of_dom, simulate_aqOut, elem_of_list_to_set.
    case_decide; split; intros H'; try done; by destruct H'.
  - apply set_eq. intros k.
    rewrite elem_of_dom, simulate_orgOut, elem_of_list_to_set.
    case_decide; split; intros H'; try done; by destruct H'.
  - intros s Hs Ha Ho.
    rewrite simulate_aqOut, simulate_orgOut, !decide_True by done.
    rewrite !(round_dp_zero 4); [done | |].
    + unfold C_out_org. rewrite (C_out_aq_absent _ _ _ _ _ Ha Ho). ring.
    + now apply C_out_aq_absent.
  - intros s Hs.
    rewrite simulate_aqOut, simulate_orgOut, !decide_False by done. done.
  - vm_compute. reflexivity.
Qed.

Lemma tracked_species_only_witness :
  "Fe"%string ∈ targetElements /\
  Nd_only 5 !! "Fe"%string = None /\
  no_feed !! "Fe"%string = None /\
  aqOut (simulate_sx_stage (Nd_only 5) no_feed 1 (Nd_only 1)) !! "Fe"%string
    = Some (Fin 0) /\
  ("Pr"%string ∉ targetElements) /\
  orgOut (simulate_sx_stage (<[ "Pr"%string := Fin 3 ]> (Nd_only 5)) no_feed 1 (Nd_only 1))
    !! "Pr"%string = None.
Proof.
  assert (H : "Fe"%string ∈ targetElements)
    by (apply list_elem_of_further, list_elem_of_here).
  assert (Ha : Nd_only 5 !! "Fe"%string = None) by reflexivity.
  assert (Ho : no_feed !! "Fe"%string = None) by reflexivity.
  assert (Hn : "Pr"%string ∉ targetElements) by compute_done.
  split; [exact H |]. split; [exact Ha |]. split; [exact Ho |].
  split.
  - exact (proj1 (proj1 (proj2 (proj2
      (tracked_species_only (Nd_only 5) no_feed 1 (Nd_only 1))))
      "Fe"%string H Ha Ho)).
  - split; [exact Hn |].
    exact (proj2 (proj1 (proj2 (proj2 (proj2
      (tracked_species_only (<[ "Pr"%string := Fin 3 ]> (Nd_only 5)) no_feed 1
         (Nd_only 1))))) "Pr"%string Hn)).
Defined.

(** ** The optimizer *)

Section Optimizer.
Variables (Math_random : Q) (current_pH : number)
          (target_optimal_pH : option number) (deterministic : option bool).

Local Abbreviation c := (current_of current_pH).
Local Abbreviation t := (target_of target_optimal_pH).
Local Abbreviation opt :=
  (prescriptive_setpoint_optimizer Math_random current_pH
     target_optimal_pH deterministic).

Lemma noise_Fin (b : bool) :
  noise Math_random b = Fin (if b then 0 else (Math_random - 0.5) * 0.05).
Proof. destruct b; reflexivity. Qed.

Lemma optimizer_setpoint :
  new_pH_setpoint opt = Fin (round_dp 2 (c + (t - c) * 0.5)).
Proof.
  unfold prescriptive_setpoint_optimizer. cbv zeta. cbn [new_pH_setpoint].
  destruct current_pH as [|x], target_optimal_pH as [[|y]|];
    cbn -[round_dp toFixed parseFloat]; apply toFixed_parseFloat.
Qed.

Lemma optimizer_efficiency :
  predicted_efficiency opt =
    Fin (clamp01 (0.8 - 0.2 * (c - t) ^ 2
                  + (if default false deterministic then 0
                     else (Math_random - 0.5) * 0.05))).
Proof.
  unfold prescriptive_setpoint_optimizer. cbv zeta. cbn [predicted_efficiency].
  rewrite noise_Fin.
  destruct current_pH as [|x], target_optimal_pH as [[|y]|]; reflexivity.
Qed.

End Optimizer.

Lemma clamp01_bounds x : 0 <= clamp01 x <= 1.
Proof.
  unfold clamp01. split; [apply Q.le_max_l |].
  apply Q.max_lub; [discriminate | apply Q.le_min_l].
Qed.

(** ** The compliance check *)

Section Compliance.
Variables (th_conc u_conc : number) (limit : option number).

Local Abbreviation total :=
  (clamp0 (Some th_conc) + clamp0 (Some u_conc)).
Local Abbreviation chk := (check_th_u_compliance th_conc u_conc limit).

Lemma safeLimit_limit_of :
  (let limit := default (Fin 0.1) limit in
   if Number_isNaN limit then Fin 0.1 else limit) = Fin (limit_of limit).
Proof. destruct limit as [[|l]|]; reflexivity. Qed.

Lemma compliance_flag :
  is_compliant chk = (Fin total < Fin (limit_of limit))%js.
Proof.
  unfold check_th_u_compliance. cbv zeta. cbn [is_compliant].
  rewrite !sanitize_clamp0.
  pose proof safeLimit_limit_of as E. cbv zeta in E. rewrite E. reflexivity.
Qed.

Lemma compliance_flag_iff :
  is_compliant chk = true <-> total < limit_of limit.
Proof. rewrite compliance_flag. apply lt_Fin. Qed.

Lemma compliance_total :
  total_conc_gl chk = Fin (round_dp 4 total).
Proof.
  unfold check_th_u_compliance. cbv zeta. cbn [total_conc_gl].
  rewrite !sanitize_clamp0. apply toFixed_parseFloat.
Qed.

Lemma compliance_finding :
  finding chk =
    if is_compliant chk then "Meets NCMM Th/U safety requirements."%string
    else "EXCEEDS Regulatory Limit. Adjust flowsheet."%string.
Proof. reflexivity. Qed.

End Compliance.

(** C10: a limit that is a number less than or equal to 0 is never met:
    the limit is replaced only when it is [NaN], and the sanitized total is
    non-negative, so it is never strictly below such a limit. *)
Theorem nonpositive_limit_fails thConc uConc (limit : Q) :
  limit <= 0 ->
  0 <= clamp0 (Some thConc) + clamp0 (Some uConc) /\
  limit_of (Some (Fin limit)) = limit /\
  is_compliant (check_th_u_compliance thConc uConc (Some (Fin limit))) = false.
Proof.
  intros Hl.
  pose proof (clamp0_nonneg (Some thConc)) as Ht.
  pose proof (clamp0_nonneg (Some uConc)) as Hu.
  split; [lra |]. split; [reflexivity |].
  apply not_true_is_false. intros Hc.
  apply compliance_flag_iff in Hc. simpl limit_of in Hc. lra.
Qed.

Lemma nonpositive_limit_fails_witness :
  0 <= 0 /\
  is_compliant (check_th_u_compliance (-5) NaN (Some (Fin 0))) = false.
Proof.
  assert (H : 0 <= 0) by discriminate.
  split; [exact H |].
  exact (proj2 (proj2 (nonpositive_limit_fails (-5) NaN 0 H))).
Defined.

(** ** The test battery passes *)

Lemma lt_Fin_false a b : ~ a < b -> (Fin a < Fin b)%js = false.
Proof. intros H. apply not_true_is_false. now rewrite lt_Fin. Qed.

Lemma sample_in_bounds rnd currentPH targetPH det :
  let e := predicted_efficiency
             (prescriptive_setpoint_optimizer rnd currentPH targetPH det) in
  (e < 0)%js || (e > 1)%js = false.
Proof.
  intros e. subst e. rewrite optimizer_efficiency.
  match goal with |- context [clamp01 ?x] => destruct (clamp01_bounds x) as [Hlo Hhi] end.
  unfold gt. rewrite !lt_Fin_false by lra. reflexivity.
Qed.

Lemma efficiency_in_bounds_true random : efficiency_in_bounds random = true.
Proof.
  unfold efficiency_in_bounds. generalize (seq 0 50).
  intros l. induction l as [|i l IH] using rev_ind; [reflexivity |].
  rewrite foldl_snoc. cbv zeta. rewrite sample_in_bounds. exact IH.
Qed.

Theorem runAllTests_pass random :
  length (runAllTests random) = 15%nat /\
  Forall (fun t => passed t = true) (runAllTests random).
Proof.
  split; [reflexivity |].
  unfold runAllTests. cbv zeta.
  repeat (apply Forall_cons; split;
          [first [apply efficiency_in_bounds_true | vm_compute; reflexivity] |]).
  apply Forall_nil. exact I.
Qed.

(** * Properties of the calculation modules in binary64 *)

Module Binary64.
Import B64 Spec64.

(** ** Comparison, maximum and the sanitized inputs *)

Lemma SFcompare_None x y :
  SFcompare x y = None -> Number_isNaN x = true \/ Number_isNaN y = true.
Proof.
  destruct x as [sx|sx| |sx mx ex], y as [sy|sy| |sy my ey]; simpl; auto;
    discriminate.
Qed.

Lemma SFcompare_antisym x y :
  SFcompare y x = option_map CompOpp (SFcompare x y).
Proof.
  destruct x as [sx|sx| |sx mx ex], y as [sy|sy| |sy my ey]; simpl;
    try reflexivity;
    try (destruct sx; reflexivity); try (destruct sy; reflexivity);
    try (destruct sx, sy; reflexivity).
  destruct sx, sy; try reflexivity; f_equal;
    rewrite (Z.compare_antisym ex ey);
    destruct (ex ?= ey)%Z; simpl; try reflexivity.
  - f_equal. exact (eq_sym (Pos.compare_cont_antisym mx my Eq)).
  - exact (eq_sym (Pos.compare_cont_antisym mx my Eq)).
Qed.

Lemma Math_max_lt x y :
  truthy x = true -> Number_isNaN y = false ->
  Math_max x y = if lt x y then y else x.
Proof.
  intros Hx Hy. unfold Math_max, lt, SFltb.
  destruct (SFcompare x y) as [[| |]|] eqn:E; try reflexivity.
  - destruct x; try discriminate; reflexivity.
  - apply SFcompare_None in E. destruct E as [E|E]; [|congruence].
    destruct x; discriminate.
Qed.

Lemma sanitized_entry (v : value) :
  Math_max zero (or_else v zero) = clamp0 v.
Proof.
  destruct v as [[s|s| |s m e]|]; try reflexivity; destruct s; reflexivity.
Qed.

Lemma safeR_spec p : safeR p = R_safe p.
Proof.
  unfold safeR, R_safe. cbv zeta. apply Math_max_lt; [reflexivity |].
  destruct p; reflexivity.
Qed.


(** Rounding keeps the sign *)

Lemma shr_1_nonneg r : (0 <= shr_m r)%Z -> (0 <= shr_m (shr_1 r))%Z.
Proof.
  destruct r as [m r s]. simpl.
  destruct m as [|[p|p|]|[p|p|]]; simpl; intros H; lia.
Qed.

Lemma iter_shr_1_nonneg p r :
  (0 <= shr_m r)%Z -> (0 <= shr_m (iter_pos shr_1 p r))%Z.
Proof.
  revert r. induction p as [p IH|p IH|]; intros r H; simpl.
  - apply IH, IH, shr_1_nonneg, H.
  - apply IH, IH, H.
  - apply shr_1_nonneg, H.
Qed.

Lemma shr_fexp_nonneg m e l :
  (0 <= m)%Z -> (0 <= shr_m (fst (shr_fexp prec emax m e l)))%Z.
Proof.
  intros H. unfold shr_fexp, shr.
  assert (H0 : (0 <= shr_m (shr_record_of_loc m l))%Z)
    by (destruct l as [|[| |]]; exact H).
  destruct (fexp prec emax (Zdigits2 m + e) - e)%Z; simpl;
    auto using iter_shr_1_nonneg.
Qed.

Lemma round_nearest_even_nonneg m l :
  (0 <= m)%Z -> (0 <= round_nearest_even m l)%Z.
Proof.
  intros H. destruct l as [|[| |]]; simpl; try lia.
  destruct (Z.even m); lia.
Qed.

Lemma binary_round_aux_signed sx mx ex lx :
  (0 <= mx)%Z -> signed sx (binary_round_aux prec emax sx mx ex lx).
Proof.
  intros H. unfold binary_round_aux.
  pose proof (shr_fexp_nonneg mx ex lx H) as H1.
  destruct (shr_fexp prec emax mx ex lx) as [mrs' e']. simpl in H1.
  pose proof (shr_fexp_nonneg _ e' loc_Exact
                (round_nearest_even_nonneg _ (loc_of_shr_record mrs') H1)) as H2.
  destruct (shr_fexp prec emax
              (round_nearest_even (shr_m mrs') (loc_of_shr_record mrs')) e' loc_Exact)
    as [mrs'' e'']. simpl in H2.
  destruct (shr_m mrs'') as [|m|m]; simpl; try reflexivity.
  - destruct (e'' <=? emax - prec)%Z; reflexivity.
  - lia.
Qed.

Lemma binary_round_signed s m e : signed s (binary_round prec emax s m e).
Proof.
  unfold binary_round.
  destruct (shl_align m e (fexp prec emax (Z.pos (digits2_pos m) + e))) as [mz ez].
  apply binary_round_aux_signed. lia.
Qed.

Lemma binary_normalize_not_NaN m e s :
  Number_isNaN (binary_normalize prec emax m e s) = false.
Proof.
  destruct m as [|p|p]; simpl; try reflexivity;
    match goal with |- context [binary_round _ _ ?s ?m ?e] =>
      pose proof (binary_round_signed s m e) as H;
      destruct (binary_round prec emax s m e); simpl in *; tauto
    end.
Qed.


Lemma signed_not_NaN s x : signed s x -> Number_isNaN x = false.
Proof. destruct x; simpl; tauto. Qed.








Lemma clamp0_not_NaN v : Number_isNaN (clamp0 v) = false.
Proof.
  destruct v as [[s|s| |s m e]|]; try reflexivity; destruct s; reflexivity.
Qed.



(** ** The stage in binary64 *)

Section Stage64.
Variables (aq_in_conc org_in_conc : gmap string number)
          (phase_ratio : number) (D_values : gmap string number).

Local Abbreviation body :=
  (forEach_body aq_in_conc org_in_conc (safeR phase_ratio) D_values).
Local Abbreviation eq_of el :=
  (equilibrium aq_in_conc org_in_conc (safeR phase_ratio) D_values el).

Lemma forEach_aqOut64 (l : list string) (out : SimulationResult) (el : string) :
  aqOut (foldl body out l) !! el =
    if decide (el ∈ l)
    then Some (round_dp 4 (Cout_aq (eq_of el)))
    else aqOut out !! el.
Proof.
  revert out. induction l as [|x l IH]; intros out.
  - rewrite decide_False by apply not_elem_of_nil. reflexivity.
  - cbn [foldl]. rewrite IH. destruct (decide (el ∈ l)) as [Hin|Hnin].
    + rewrite decide_True by (apply elem_of_cons; now right). reflexivity.
    + destruct (decide (x = el)) as [->|Hne].
      * rewrite decide_True by apply list_elem_of_here.
        apply lookup_insert_eq.
      * rewrite decide_False
          by (intros [?|?]%elem_of_cons; [congruence | contradiction]).
        now apply lookup_insert_ne.
Qed.

Lemma forEach_orgOut64 (l : list string) (out : SimulationResult) (el : string) :
  orgOut (foldl body out l) !! el =
    if decide (el ∈ l)
    then Some (round_dp 4 (Cout_org (eq_of el)))
    else orgOut out !! el.
Proof.
  revert out. induction l as [|x l IH]; intros out.
  - rewrite decide_False by apply not_elem_of_nil. reflexivity.
  - cbn [foldl]. rewrite IH. destruct (decide (el ∈ l)) as [Hin|Hnin].
    + rewrite decide_True by (apply elem_of_cons; now right). reflexivity.
    + destruct (decide (x = el)) as [->|Hne].
      * rewrite decide_True by apply list_elem_of_here.
        apply lookup_insert_eq.
      * rewrite decide_False
          by (intros [?|?]%elem_of_cons; [congruence | contradiction]).
        now apply lookup_insert_ne.
Qed.

Lemma equilibrium_locals64 el :
  let R := R_safe phase_ratio in
  let a := clamp0 (aq_in_conc !! el) in
  let o := clamp0 (org_in_conc !! el) in
  let d := clamp0 (D_values !! el) in
  let x := div (add a (mul R o)) (add (decimal 1 0) (mul R d)) in
  eq_of el =
    {| Cin_aq := a; Cin_org := o; D := d;
       denominator := add (decimal 1 0) (mul R d);
       Cout_aq := x; Cout_org := mul d x |}.
Proof.
  unfold equilibrium. cbv zeta. now rewrite !sanitized_entry, safeR_spec.
Qed.

Lemma simulate_aqOut64 el :
  aqOut (simulate_sx_stage aq_in_conc org_in_conc phase_ratio D_values) !! el =
    if decide (el ∈ targetElements)
    then Some (round_dp 4 (Cout_aq (eq_of el)))
    else None.
Proof. unfold simulate_sx_stage. cbv zeta. now rewrite forEach_aqOut64. Qed.

Lemma simulate_orgOut64 el :
  orgOut (simulate_sx_stage aq_in_conc org_in_conc phase_ratio D_values) !! el =
    if decide (el ∈ targetElements)
    then Some (round_dp 4 (Cout_org (eq_of el)))
    else None.
Proof. unfold simulate_sx_stage. cbv zeta. now rewrite forEach_orgOut64. Qed.



End Stage64.


(** ** Rounding to decimals *)

Lemma nearest_bound (a : Q) (d : nat) :
  0 <= a ->
  Qabs (inject_Z (Z.of_N (nearest a d)) / pow10 d - a) <= (1 # 2) / pow10 d.
Proof.
  intros Ha. unfold nearest. fold (pow10 d).
  set (f := Qfloor (a * pow10 d + (1 # 2))).
  assert (Hf : (0 <= f)%Z).
  { change 0%Z with (Qfloor 0). apply Qfloor_resp_le.
    pose proof (pow10_pos d). nra. }
  rewrite Z2N.id by exact Hf.
  destruct (floor_bracket (a * pow10 d + (1 # 2))) as [Hlo Hhi].
  apply near_scaled; auto using pow10_pos.
Qed.

Lemma round_dp_nearest64 d x :
  real x = true -> Qabs (toQ x) < inject_Z (10 ^ 21) ->
  nearest_decimal d x (round_dp d x).
Proof.
  intros Hx Hb. unfold round_dp, nearest_decimal.
  change (inject_Z (10 ^ Z.of_nat d)) with (pow10 d).
  destruct x as [s|s| |s m e]; try discriminate.
  - exists 0%N. split; [reflexivity |].
    pose proof (pow10_pos d) as Hp.
    assert (Hi : 0 < / pow10 d) by (apply Qinv_lt_0_compat, Hp).
    cbn [toQ Z.of_N]. change (inject_Z 0) with 0.
    change (Qabs 0) with 0.
    setoid_replace (0 / pow10 d - 0) with 0 using relation Qeq
      by (unfold Qdiv; ring).
    change (Qabs 0) with 0. unfold Qdiv. nra.
  - exists (nearest (Qabs (toQ (S754_finite s m e))) d). split.
    + unfold toFixed.
      destruct (Qle_bool _ _) eqn:E.
      * apply Qle_bool_iff in E. apply Qlt_not_le in Hb. contradiction.
      * destruct s; reflexivity.
    + apply nearest_bound, Qabs_nonneg.
Qed.


(** ** Comparisons and the clamp *)

Lemma lt_le x y : lt x y = true -> le x y = true.
Proof.
  unfold lt, le, SFltb, SFleb. destruct (SFcompare x y) as [[| |]|]; congruence.
Qed.

Lemma lt_swap x y : lt y x = match SFcompare x y with Some Gt => true | _ => false end.
Proof.
  unfold lt, SFltb. rewrite (SFcompare_antisym x y).
  destruct (SFcompare x y) as [[| |]|]; reflexivity.
Qed.

Lemma Math_min_lt x y :
  truthy x = true -> Number_isNaN y = false ->
  Math_min x y = if lt y x then y else x.
Proof.
  intros Hx Hy. rewrite lt_swap. unfold Math_min.
  destruct (SFcompare x y) as [[| |]|] eqn:E; try reflexivity.
  - destruct x; try discriminate; reflexivity.
  - apply SFcompare_None in E. destruct E as [E|E]; [|congruence].
    destruct x; discriminate.
Qed.

Lemma Math_max_zero x :
  Math_max zero x = if Number_isNaN x then x else if lt zero x then x else zero.
Proof. destruct x as [s|s| |s m e]; try reflexivity; destruct s; reflexivity. Qed.

Lemma Math_min_NaN x y : Number_isNaN y = true -> Math_min x y = y.
Proof. destruct y; try discriminate. destruct x; reflexivity. Qed.

Lemma clamp01_code x : Math_max zero (Math_min (decimal 1 0) x) = clamp01 x.
Proof.
  unfold clamp01. destruct (Number_isNaN x) eqn:Hx.
  - rewrite Math_min_NaN by exact Hx. rewrite Math_max_zero, Hx. reflexivity.
  - rewrite Math_min_lt by (reflexivity || exact Hx).
    rewrite Math_max_zero.
    destruct (lt x (decimal 1 0)); [now rewrite Hx | reflexivity].
Qed.

Lemma clamp01_bounds64 x :
  Number_isNaN x = false ->
  le zero (clamp01 x) = true /\ le (clamp01 x) (decimal 1 0) = true.
Proof.
  intros Hx. unfold clamp01. rewrite Hx.
  destruct (lt x (decimal 1 0)) eqn:E1; [destruct (lt zero x) eqn:E2 |].
  - split; apply lt_le; assumption.
  - split; reflexivity.
  - split; reflexivity.
Qed.

(** ** Which operations can yield NaN *)

Lemma sub_real_not_NaN x y :
  real x = true -> Number_isNaN y = false -> Number_isNaN (sub x y) = false.
Proof.
  destruct x as [sx|sx| |sx mx ex], y as [sy|sy| |sy my ey]; try discriminate;
    intros _ _; try reflexivity.
  - destruct sx, sy; reflexivity.
  - apply binary_normalize_not_NaN.
Qed.

Lemma add_real_not_NaN x y :
  Number_isNaN x = false -> real y = true -> Number_isNaN (add x y) = false.
Proof.
  destruct x as [sx|sx| |sx mx ex], y as [sy|sy| |sy my ey]; try discriminate;
    intros _ _; try reflexivity.
  - destruct sx, sy; reflexivity.
  - apply binary_normalize_not_NaN.
Qed.

Lemma mul_finite_not_NaN x y :
  real x = true -> truthy x = true -> Number_isNaN y = false ->
  Number_isNaN (mul x y) = false.
Proof.
  destruct x as [sx|sx| |sx mx ex], y as [sy|sy| |sy my ey]; try discriminate;
    intros _ _ _; try reflexivity.
  apply (signed_not_NaN (xorb sx sy)). apply binary_round_aux_signed. lia.
Qed.

Lemma real_not_NaN x : real x = true -> Number_isNaN x = false.
Proof. destruct x; try discriminate; reflexivity. Qed.

Lemma mul_comm x y : mul x y = mul y x.
Proof.
  destruct x as [sx|sx| |sx mx ex], y as [sy|sy| |sy my ey]; simpl;
    try reflexivity; try (now rewrite xorb_comm).
  unfold mul. simpl.
  now rewrite xorb_comm, Pos.mul_comm, Z.add_comm.
Qed.

Lemma add_comm x y : add x y = add y x.
Proof.
  destruct x as [sx|sx| |sx mx ex], y as [sy|sy| |sy my ey]; simpl;
    try reflexivity; try (destruct sx, sy; reflexivity).
  unfold add. simpl. now rewrite Z.min_comm, Z.add_comm.
Qed.

(** ** The optimizer in binary64 *)

Section Optimizer64.
Variables (Math_pow : number -> number -> number)
          (Math_random current_pH : number)
          (target_optimal_pH : option number) (deterministic : option bool).

Local Abbreviation c := (current_of current_pH).
Local Abbreviation t := (target_of target_optimal_pH).
Local Abbreviation opt :=
  (prescriptive_setpoint_optimizer Math_pow Math_random current_pH
     target_optimal_pH deterministic).

Lemma optimizer_setpoint64 :
  new_pH_setpoint opt = round_dp 2 (add c (mul (sub t c) (decimal 5 1))).
Proof. destruct target_optimal_pH; reflexivity. Qed.

Lemma optimizer_action64 :
  action opt =
    if gt (mul (sub t c) (decimal 5 1)) (decimal 1 2)
    then "Increase Acid/Base Flow (Raise pH)"%string
    else if lt (mul (sub t c) (decimal 5 1)) (neg (decimal 1 2))
         then "Adjust Acid/Base Flow (Lower pH)"%string
         else "Maintain pH"%string.
Proof. destruct target_optimal_pH; reflexivity. Qed.

Lemma optimizer_efficiency64 :
  predicted_efficiency opt =
    clamp01 (add (sub (decimal 8 1)
                      (mul (decimal 2 1) (Math_pow (sub c t) (decimal 2 0))))
                 (noise Math_random (default false deterministic))).
Proof.
  unfold prescriptive_setpoint_optimizer. cbv zeta. cbn [predicted_efficiency].
  rewrite clamp01_code. destruct target_optimal_pH; reflexivity.
Qed.

End Optimizer64.

(** ** The compliance check in binary64 *)

Section Compliance64.
Variables (th_conc u_conc : number) (limit : option number).

Local Abbreviation total :=
  (add (clamp0 (Some th_conc)) (clamp0 (Some u_conc))).
Local Abbreviation chk := (check_th_u_compliance th_conc u_conc limit).

Lemma compliance_flag64 : is_compliant chk = lt total (limit_of limit).
Proof.
  unfold check_th_u_compliance. cbv zeta. cbn [is_compliant].
  rewrite !sanitized_entry. destruct limit; reflexivity.
Qed.

Lemma compliance_total64 : total_conc_gl chk = round_dp 4 total.
Proof.
  unfold check_th_u_compliance. cbv zeta. cbn [total_conc_gl].
  now rewrite !sanitized_entry.
Qed.

Lemma compliance_finding64 :
  finding chk =
    if is_compliant chk then "Meets NCMM Th/U safety requirements."%string
    else "EXCEEDS Regulatory Limit. Adjust flowsheet."%string.
Proof. reflexivity. Qed.

End Compliance64.


(** ** Exact values *)








(** C1: for every pair of input maps, coefficient map and phase ratio, and
    for each tracked species [s], the stage computes, in the engine's
    binary64 arithmetic, [aqOut[s]] as the quotient
    [(Cin_aq + R_safe * Cin_org) / (1 + R_safe * D_s)] rounded to four
    decimals and [orgOut[s]] as [D_s] times that unrounded quotient, rounded
    to four decimals; the inputs are read with missing, NaN and negative
    values clamped to 0 and [R_safe = max(1e-4, phaseRatio)] with a NaN
    ratio replaced by 1.0.  Rounding a real number below 1e21 to four
    decimals gives the number denoted by a four-place decimal within half a
    unit of the last place of it. *)
Theorem simulate_formula aqIn orgIn phaseRatio Dmap s :
  s ∈ targetElements ->
  let r := simulate_sx_stage aqIn orgIn phaseRatio Dmap in
  let R := R_safe phaseRatio in
  let a := clamp0 (aqIn !! s) in
  let o := clamp0 (orgIn !! s) in
  let d := clamp0 (Dmap !! s) in
  let x := div (add a (mul R o)) (add (decimal 1 0) (mul R d)) in
  aqOut r !! s = Some (round_dp 4 x) /\
  orgOut r !! s = Some (round_dp 4 (mul d x)) /\
  (forall y, real y = true -> Qabs (toQ y) < inject_Z (10 ^ 21) ->
     nearest_decimal 4 y (round_dp 4 y)).
Proof.
  intros Hs r R a o d x. subst r.
  rewrite simulate_aqOut64, simulate_orgOut64, !decide_True by exact Hs.
  pose proof (equilibrium_locals64 aqIn orgIn phaseRatio Dmap s) as E.
  cbv zeta in E. rewrite E.
  split; [reflexivity |]. split; [reflexivity |].
  intros y. apply round_dp_nearest64.
Qed.

Lemma simulate_formula_witness :
  "Nd"%string ∈ targetElements /\
  aqOut (simulate_sx_stage (Nd_only (decimal 10 0)) ∅ (decimal 1 0)
           (Nd_only (decimal 9 0))) !! "Nd"%string = Some (decimal 1 0) /\
  orgOut (simulate_sx_stage (Nd_only (decimal 10 0)) ∅ (decimal 1 0)
            (Nd_only (decimal 9 0))) !! "Nd"%string = Some (decimal 9 0).
Proof.
  assert (H : "Nd"%string ∈ targetElements) by apply list_elem_of_here.
  split; [exact H |].
  destruct (simulate_formula (Nd_only (decimal 10 0)) ∅ (decimal 1 0)
              (Nd_only (decimal 9 0)) "Nd"%string H) as (Ha & Ho & _).
  split; [rewrite Ha | rewrite Ho]; vm_compute; reflexivity.
Defined.

(** The quotient and its rounding are those of the engine:
    [simulate({Nd:0.0003}, {}, 1, {Nd:1})] stores 0.0001 for both phases,
    the binary64 quotient lying just below the tie 0.00015. *)
Remark decimal_ties_follow_the_double :
  let r := simulate_sx_stage (Nd_only (decimal 3 4)) ∅ (decimal 1 0)
             (Nd_only (decimal 1 0)) in
  aqOut r !! "Nd"%string = Some (decimal 1 4) /\
  orgOut r !! "Nd"%string = Some (decimal 1 4).
Proof. vm_compute. split; reflexivity. Qed.

(** Rounding the aqueous output first would change the organic one: for
    the feed Nd = 10 with R = 1 and D = 2 the stage returns 3.3333 and
    6.6667, while 2 * 3.3333 is 6.6666. *)
Remark orgOut_from_unrounded :
  let r := simulate_sx_stage (Nd_only (decimal 10 0)) ∅ (decimal 1 0)
             (Nd_only (decimal 2 0)) in
  aqOut r !! "Nd"%string = Some (decimal 33333 4) /\
  orgOut r !! "Nd"%string = Some (decimal 66667 4) /\
  round_dp 4 (mul (decimal 2 0) (decimal 33333 4)) = decimal 66666 4.
Proof. vm_compute. repeat split; reflexivity. Qed.










(** C3: compliance is decided by a strict inequality on the sanitized,
    unrounded total, the binary64 sum [safeTh + safeU]: [is_compliant]
    holds exactly when that sum is less than the limit (a NaN limit
    counting as 0.1), so a total equal to the limit is not compliant.
    [checkCompliance(0.04, 0.05, 0.1)] is compliant,
    [checkCompliance(0.06, 0.05, 0.1)] and [checkCompliance(0.05, 0.05,
    0.1)] are not.  The finding is "Meets NCMM Th/U safety requirements."
    exactly when compliant and "EXCEEDS Regulatory Limit. Adjust
    flowsheet." otherwise. *)
Theorem compliance_strict thConc uConc limit :
  let r := check_th_u_compliance thConc uConc limit in
  let total := add (clamp0 (Some thConc)) (clamp0 (Some uConc)) in
  (is_compliant r = true <-> lt total (limit_of limit) = true) /\
  (SFcompare total (limit_of limit) = Some Eq -> is_compliant r = false) /\
  (finding r = "Meets NCMM Th/U safety requirements."%string
     <-> is_compliant r = true) /\
  (finding r = "EXCEEDS Regulatory Limit. Adjust flowsheet."%string
     <-> is_compliant r = false) /\
  is_compliant (check_th_u_compliance (decimal 4 2) (decimal 5 2) (Some (decimal 1 1))) = true /\
  is_compliant (check_th_u_compliance (decimal 6 2) (decimal 5 2) (Some (decimal 1 1))) = false /\
  is_compliant (check_th_u_compliance (decimal 5 2) (decimal 5 2) (Some (decimal 1 1))) = false.
Proof.
  intros r total. subst r total.
  split; [now rewrite compliance_flag64 |].
  split.
  { intros E. rewrite compliance_flag64. unfold lt, SFltb. now rewrite E. }
  rewrite compliance_finding64.
  destruct (is_compliant (check_th_u_compliance thConc uConc limit));
    repeat split; intros; try discriminate; reflexivity.
Qed.

Lemma compliance_strict_witness :
  SFcompare (add (clamp0 (Some (decimal 5 2))) (clamp0 (Some (decimal 5 2))))
            (limit_of (Some (decimal 1 1))) = Some Eq /\
  is_compliant (check_th_u_compliance (decimal 5 2) (decimal 5 2) (Some (decimal 1 1)))
    = false.
Proof.
  assert (H : SFcompare (add (clamp0 (Some (decimal 5 2))) (clamp0 (Some (decimal 5 2))))
                        (limit_of (Some (decimal 1 1))) = Some Eq)
    by (vm_compute; reflexivity).
  split; [exact H |].
  exact (proj1 (proj2
    (compliance_strict (decimal 5 2) (decimal 5 2) (Some (decimal 1 1)))) H).
Defined.

(** The sum is the engine's: [checkCompliance(0.01, 0.09, 0.1)] is
    compliant, 0.01 + 0.09 being 0.09999999999999999 in binary64, and
    reports the total 0.1. *)
Remark sum_decided_in_binary64 :
  let r := check_th_u_compliance (decimal 1 2) (decimal 9 2) (Some (decimal 1 1)) in
  is_compliant r = true /\ total_conc_gl r = decimal 1 1.
Proof. vm_compute. split; reflexivity. Qed.


(** C9: the reported total is the binary64 sum of the sanitized
    concentrations (a negative or NaN concentration counting as 0) rounded
    to four decimals, which for a real sum below 1e21 is the number denoted
    by a four-place decimal within half a unit of the last place of it.
    The rounding removes the artifact of the binary sum: 0.1 + 0.2 is not
    0.3 in binary64, yet [checkCompliance(0.1, 0.2, 0.5)] reports exactly
    0.3; and [checkCompliance(-5, 0.2, 0.5)] reports 0.2. *)
Theorem total_rounded thConc uConc limit :
  let total := add (clamp0 (Some thConc)) (clamp0 (Some uConc)) in
  total_conc_gl (check_th_u_compliance thConc uConc limit) = round_dp 4 total /\
  (real total = true -> Qabs (toQ total) < inject_Z (10 ^ 21) ->
     nearest_decimal 4 total (round_dp 4 total)) /\
  add (decimal 1 1) (decimal 2 1) <> decimal 3 1 /\
  total_conc_gl (check_th_u_compliance (decimal 1 1) (decimal 2 1) (Some (decimal 5 1)))
    = decimal 3 1 /\
  total_conc_gl (check_th_u_compliance (neg (decimal 5 0)) (decimal 2 1) (Some (decimal 5 1)))
    = decimal 2 1.
Proof.
  intros total. split; [apply compliance_total64 |].
  split; [apply round_dp_nearest64 |].
  split; [vm_compute; discriminate |].
  split; vm_compute; reflexivity.
Qed.

Lemma total_rounded_witness :
  real (add (clamp0 (Some (decimal 1 1))) (clamp0 (Some (decimal 2 1)))) = true /\
  Qabs (toQ (add (clamp0 (Some (decimal 1 1))) (clamp0 (Some (decimal 2 1)))))
    < inject_Z (10 ^ 21) /\
  nearest_decimal 4 (add (clamp0 (Some (decimal 1 1))) (clamp0 (Some (decimal 2 1))))
    (round_dp 4 (add (clamp0 (Some (decimal 1 1))) (clamp0 (Some (decimal 2 1))))).
Proof.
  assert (H1 : real (add (clamp0 (Some (decimal 1 1))) (clamp0 (Some (decimal 2 1))))
               = true) by (vm_compute; reflexivity).
  assert (H2 : Qabs (toQ (add (clamp0 (Some (decimal 1 1))) (clamp0 (Some (decimal 2 1)))))
               < inject_Z (10 ^ 21)) by (vm_compute; reflexivity).
  split; [exact H1 |]. split; [exact H2 |].
  exact (proj1 (proj2
    (total_rounded (decimal 1 1) (decimal 2 1) (Some (decimal 5 1)))) H1 H2).
Defined.


(** C5: the recommended setpoint is [currentPH + 0.5 * (targetPH -
    currentPH)], computed in binary64 on the sanitized arguments (a NaN
    current pH is 0, a NaN target pH is 1.8) and rounded to two decimals;
    it depends neither on the deterministic flag nor on the random draw
    (nor on [Math.pow]).  In particular [optimize(1.0, 2.0, true)] and
    [optimize(2.0, 1.0, true)] both recommend 1.5. *)
Theorem setpoint_formula Math_pow rnd currentPH targetPH det :
  let c := current_of currentPH in
  let t := target_of targetPH in
  let x := add c (mul (decimal 5 1) (sub t c)) in
  new_pH_setpoint (prescriptive_setpoint_optimizer Math_pow rnd currentPH targetPH det)
    = round_dp 2 x /\
  (real x = true -> Qabs (toQ x) < inject_Z (10 ^ 21) ->
     nearest_decimal 2 x (round_dp 2 x)) /\
  (forall Math_pow' rnd' det',
     new_pH_setpoint
       (prescriptive_setpoint_optimizer Math_pow' rnd' currentPH targetPH det')
     = new_pH_setpoint
         (prescriptive_setpoint_optimizer Math_pow rnd currentPH targetPH det)) /\
  new_pH_setpoint
    (prescriptive_setpoint_optimizer Math_pow rnd (decimal 10 1)
       (Some (decimal 20 1)) (Some true)) = decimal 15 1 /\
  new_pH_setpoint
    (prescriptive_setpoint_optimizer Math_pow rnd (decimal 20 1)
       (Some (decimal 10 1)) (Some true)) = decimal 15 1.
Proof.
  intros c t x.
  split; [| split; [apply round_dp_nearest64 | split; [| split]]].
  - rewrite optimizer_setpoint64. subst x c t. now rewrite mul_comm.
  - intros p' rnd' det'. now rewrite !optimizer_setpoint64.
  - rewrite optimizer_setpoint64. vm_compute. reflexivity.
  - rewrite optimizer_setpoint64. vm_compute. reflexivity.
Qed.

Lemma setpoint_formula_witness :
  let x := add (current_of (decimal 10 1))
               (mul (decimal 5 1) (sub (target_of None) (current_of (decimal 10 1)))) in
  real x = true /\ Qabs (toQ x) < inject_Z (10 ^ 21) /\
  nearest_decimal 2 x (round_dp 2 x).
Proof.
  intros x.
  assert (H1 : real x = true) by (vm_compute; reflexivity).
  assert (H2 : Qabs (toQ x) < inject_Z (10 ^ 21)) by (vm_compute; reflexivity).
  split; [exact H1 |]. split; [exact H2 |].
  exact (proj1 (proj2
    (setpoint_formula square zero (decimal 10 1) None None)) H1 H2).
Defined.

(** The rounding acts on the binary64 value: [optimize(1.0, 1.01, true)]
    recommends 1, the sum 1.0 + 0.005 lying just below the tie 1.005. *)
Remark setpoint_tie_follows_the_double :
  new_pH_setpoint
    (prescriptive_setpoint_optimizer square zero (decimal 10 1)
       (Some (decimal 101 2)) (Some true)) = decimal 1 0.
Proof. vm_compute. reflexivity. Qed.


Lemma gt_lt_exclusive x m e :
  gt x (S754_finite false m e) = true ->
  lt x (neg (S754_finite false m e)) = false.
Proof.
  unfold gt, lt, SFltb.
  destruct x as [s|s| |s mx ex]; simpl; try discriminate;
    destruct s; simpl; try discriminate; reflexivity.
Qed.

(** C6: the action depends only on [step = 0.5 * (targetPH - currentPH)],
    computed in binary64 on the sanitized arguments, through a dead-band of
    0.01 with strict comparisons: it is the raise label exactly when
    [step > 0.01], the lower label exactly when [step < -0.01], and
    "Maintain pH" otherwise, the two ends [step = 0.01] and [step = -0.01]
    included. *)
Theorem action_dead_band Math_pow rnd currentPH targetPH det :
  let step := mul (decimal 5 1) (sub (target_of targetPH) (current_of currentPH)) in
  let a := action (prescriptive_setpoint_optimizer Math_pow rnd currentPH targetPH det) in
  (a = "Increase Acid/Base Flow (Raise pH)"%string
     <-> gt step (decimal 1 2) = true) /\
  (a = "Adjust Acid/Base Flow (Lower pH)"%string
     <-> lt step (neg (decimal 1 2)) = true) /\
  (a = "Maintain pH"%string
     <-> gt step (decimal 1 2) = false /\ lt step (neg (decimal 1 2)) = false) /\
  (step = decimal 1 2 \/ step = neg (decimal 1 2) -> a = "Maintain pH"%string).
Proof.
  intros step a. subst a. rewrite optimizer_action64.
  rewrite (mul_comm (sub _ _)). fold step.
  assert (Hx : gt step (decimal 1 2) = true -> lt step (neg (decimal 1 2)) = false).
  { replace (decimal 1 2) with (S754_finite false 5764607523034235 (-59))
      by (vm_compute; reflexivity).
    apply gt_lt_exclusive. }
  split; [| split; [| split]].
  - destruct (gt step (decimal 1 2)); [| destruct (lt step (neg (decimal 1 2)))];
      split; intros; try discriminate; reflexivity.
  - destruct (gt step (decimal 1 2)) eqn:G.
    + rewrite (Hx eq_refl). split; intros; discriminate.
    + destruct (lt step (neg (decimal 1 2))); split; intros; try discriminate;
        reflexivity.
  - destruct (gt step (decimal 1 2)); [| destruct (lt step (neg (decimal 1 2)))];
      split; try (intros [? ?]); intros; try discriminate; auto.
  - intros [E|E]; rewrite E; vm_compute; reflexivity.
Qed.

Lemma action_dead_band_witness :
  let step := mul (decimal 5 1)
                  (sub (target_of (Some (decimal 102 2))) (current_of (decimal 10 1))) in
  gt step (decimal 1 2) = true /\
  action (prescriptive_setpoint_optimizer square zero (decimal 10 1)
            (Some (decimal 102 2)) (Some true))
    = "Increase Acid/Base Flow (Raise pH)"%string.
Proof.
  intros step.
  assert (H : gt step (decimal 1 2) = true) by (vm_compute; reflexivity).
  split; [exact H |].
  exact (proj2 (proj1
    (action_dead_band square zero (decimal 10 1) (Some (decimal 102 2)) (Some true)))
    H).
Defined.


Lemma noise_in_range_real n : noise_in_range n = true -> real n = true.
Proof.
  unfold noise_in_range. intros H. apply andb_prop in H. destruct H as [H1 H2].
  destruct n as [s|s| |s m e]; try reflexivity.
  - destruct s; [vm_compute in H1 | vm_compute in H2]; discriminate.
  - vm_compute in H1. discriminate.
Qed.

Lemma current_of_real c : real_or_NaN c = true -> real (current_of c) = true.
Proof. destruct c; try discriminate; reflexivity. Qed.

Lemma target_of_real t :
  (forall x, t = Some x -> real_or_NaN x = true) -> real (target_of t) = true.
Proof.
  intros H. destruct t as [x|]; [| reflexivity].
  specialize (H x eq_refl). destruct x; try discriminate; reflexivity.
Qed.

Lemma efficiency_not_NaN (Math_pow : number -> number -> number) c t n :
  (forall x, Number_isNaN x = false ->
     Number_isNaN (Math_pow x (decimal 2 0)) = false) ->
  real c = true -> real t = true -> real n = true ->
  Number_isNaN
    (add (sub (decimal 8 1) (mul (decimal 2 1) (Math_pow (sub c t) (decimal 2 0)))) n)
  = false.
Proof.
  intros Hpow Hc Ht Hn.
  apply add_real_not_NaN; [| exact Hn].
  apply sub_real_not_NaN; [reflexivity |].
  apply mul_finite_not_NaN; [reflexivity | reflexivity |].
  apply Hpow. apply sub_real_not_NaN; [exact Hc |].
  apply real_not_NaN, Ht.
Qed.

Lemma square_not_NaN x :
  Number_isNaN x = false -> Number_isNaN (square x (decimal 2 0)) = false.
Proof.
  unfold square. destruct x as [s|s| |s m e]; try discriminate; intros _;
    try reflexivity.
  apply (signed_not_NaN (xorb s s)). apply binary_round_aux_signed. lia.
Qed.

Lemma sample_in_unit_interval (Math_pow : number -> number -> number)
    rnd currentPH targetPH det :
  (forall x, Number_isNaN x = false ->
     Number_isNaN (Math_pow x (decimal 2 0)) = false) ->
  real_or_NaN currentPH = true ->
  (forall x, targetPH = Some x -> real_or_NaN x = true) ->
  noise_in_range (noise rnd (default false det)) = true ->
  let e := predicted_efficiency
             (prescriptive_setpoint_optimizer Math_pow rnd currentPH targetPH det) in
  le zero e = true /\ le e (decimal 1 0) = true.
Proof.
  intros Hpow Hc Ht Hn e. subst e. rewrite optimizer_efficiency64.
  apply clamp01_bounds64, efficiency_not_NaN;
    auto using current_of_real, target_of_real, noise_in_range_real.
Qed.

(** C7: the predicted efficiency is
    [clamp(0.8 - 0.2 * (currentPH - targetPH)^2 + n, 0, 1)], computed in
    binary64 on the sanitized arguments, where the noise [n] is 0 when
    deterministic and [(Math.random() - 0.5) * 0.05] otherwise.  For every
    current and target pH that are real numbers or NaN, and every noise in
    [-0.025, 0.025], it lies in [0, 1], provided [Math.pow] yields a number
    for a number.  So does every stochastic sample of
    [optimize(1.8, 1.8, false)]. *)
Theorem efficiency_bounds Math_pow rnd currentPH targetPH det :
  let c := current_of currentPH in
  let t := target_of targetPH in
  let n := noise rnd (default false det) in
  let e := predicted_efficiency
             (prescriptive_setpoint_optimizer Math_pow rnd currentPH targetPH det) in
  (default false det = true -> n = zero) /\
  (default false det = false -> n = mul (sub rnd (decimal 5 1)) (decimal 5 2)) /\
  noise_in_range zero = true /\
  e = clamp01 (add (sub (decimal 8 1)
                        (mul (decimal 2 1) (Math_pow (sub c t) (decimal 2 0)))) n) /\
  ((forall x, Number_isNaN x = false ->
      Number_isNaN (Math_pow x (decimal 2 0)) = false) ->
   real_or_NaN currentPH = true ->
   (forall x, targetPH = Some x -> real_or_NaN x = true) ->
   noise_in_range n = true ->
   le zero e = true /\ le e (decimal 1 0) = true) /\
  ((forall x, Number_isNaN x = false ->
      Number_isNaN (Math_pow x (decimal 2 0)) = false) ->
   forall sample,
     noise_in_range (noise sample false) = true ->
     let e' := predicted_efficiency
                 (prescriptive_setpoint_optimizer Math_pow sample (decimal 18 1)
                    (Some (decimal 18 1)) (Some false)) in
     le zero e' = true /\ le e' (decimal 1 0) = true).
Proof.
  intros c t n e.
  split; [intros E; subst n; now rewrite E |].
  split; [intros E; subst n; now rewrite E |].
  split; [reflexivity |].
  split; [apply optimizer_efficiency64 |].
  split.
  - intros Hpow Hc Ht Hn. now apply sample_in_unit_interval.
  - intros Hpow sample Hn.
    apply sample_in_unit_interval; [exact Hpow | reflexivity | | exact Hn].
    intros x [= <-]. reflexivity.
Qed.

Lemma efficiency_bounds_witness :
  (forall x, Number_isNaN x = false ->
     Number_isNaN (square x (decimal 2 0)) = false) /\
  real_or_NaN (decimal 18 1) = true /\
  noise_in_range (noise (decimal 25 2) false) = true /\
  le zero
     (predicted_efficiency
        (prescriptive_setpoint_optimizer square (decimal 25 2) (decimal 18 1)
           (Some (decimal 18 1)) (Some false))) = true /\
  le (predicted_efficiency
        (prescriptive_setpoint_optimizer square (decimal 25 2) (decimal 18 1)
           (Some (decimal 18 1)) (Some false)))
     (decimal 1 0) = true.
Proof.
  assert (H1 : real_or_NaN (decimal 18 1) = true) by (vm_compute; reflexivity).
  assert (H2 : forall x, Some (decimal 18 1) = Some x -> real_or_NaN x = true)
    by (intros x [= <-]; exact H1).
  assert (H3 : noise_in_range (noise (decimal 25 2) false) = true)
    by (vm_compute; reflexivity).
  split; [exact square_not_NaN |]. split; [exact H1 |]. split; [exact H3 |].
  exact (proj1 (proj2 (proj2 (proj2 (proj2
    (efficiency_bounds square (decimal 25 2) (decimal 18 1) (Some (decimal 18 1))
       (Some false)))))) square_not_NaN H1 H2 H3).
Defined.

(** At the two extreme draws the noise is inside the interval: the draw 0
    gives exactly -0.025, and the largest number below 1 gives a noise just
    below 0.025. *)
Remark noise_at_the_extreme_draws :
  noise zero false = neg (decimal 25 3) /\
  noise_in_range (noise (S754_finite false 9007199254740991 (-53)) false) = true /\
  lt (S754_finite false 9007199254740991 (-53)) (decimal 1 0) = true.
Proof. vm_compute. repeat split; reflexivity. Qed.

End Binary64.

(** * Further properties of the code, in exact arithmetic *)

(** ** Rounding: decimals are fixed, order is kept *)









(** ** The stage: what the outputs depend on *)

Lemma SimulationResult_eq (r r' : SimulationResult) :
  aqOut r = aqOut r' -> orgOut r = orgOut r' -> r = r'.
Proof. destruct r, r'. simpl. intros -> ->. reflexivity. Qed.

Lemma C_out_aq_agree aq aq' org org' p p' Dv Dv' s :
  clamp0 (aq !! s) == clamp0 (aq' !! s) ->
  clamp0 (org !! s) == clamp0 (org' !! s) ->
  clamp0 (Dv !! s) == clamp0 (Dv' !! s) ->
  R_safe p == R_safe p' ->
  C_out_aq aq org p Dv s == C_out_aq aq' org' p' Dv' s /\
  C_out_org aq org p Dv s == C_out_org aq' org' p' Dv' s.
Proof.
  intros Ha Ho Hd Hp.
  unfold C_out_org, C_out_aq, mass_in, C_in_aq, C_in_org, D_s.
  rewrite Ha, Ho, Hd, Hp. split; reflexivity.
Qed.

Lemma simulate_agree aq aq' org org' p p' Dv Dv' :
  same_tracked aq aq' -> same_tracked org org' -> same_tracked Dv Dv' ->
  R_safe p == R_safe p' ->
  simulate_sx_stage aq org p Dv = simulate_sx_stage aq' org' p' Dv'.
Proof.
  intros Ha Ho Hd Hp. apply SimulationResult_eq; apply map_eq; intros s.
  - rewrite !simulate_aqOut. case_decide as Hs; [| reflexivity].
    do 2 f_equal. apply round_dp_comp.
    now apply C_out_aq_agree; [apply Ha | apply Ho | apply Hd |].
  - rewrite !simulate_orgOut. case_decide as Hs; [| reflexivity].
    do 2 f_equal. apply round_dp_comp.
    now apply C_out_aq_agree; [apply Ha | apply Ho | apply Hd |].
Qed.

Lemma same_tracked_refl m : same_tracked m m.
Proof. intros s _. reflexivity. Qed.

Lemma clamp0_reads_as_zero v : reads_as_zero v -> clamp0 (Some v) == 0.
Proof.
  destruct v as [|q]; simpl; [reflexivity |].
  intros Hq. apply Q.max_l. exact Hq.
Qed.

Lemma same_tracked_insert_zero m k v :
  reads_as_zero v -> same_tracked (<[k := v]> m) (delete k m).
Proof.
  intros Hv s _. destruct (decide (k = s)) as [->|Hne].
  - rewrite lookup_insert_eq, lookup_delete_eq.
    now apply clamp0_reads_as_zero.
  - rewrite lookup_insert_ne, lookup_delete_ne by exact Hne. reflexivity.
Qed.

Lemma same_tracked_insert_untracked m k v :
  k ∉ targetElements -> same_tracked (<[k := v]> m) m.
Proof.
  intros Hk s Hs. rewrite lookup_insert_ne; [reflexivity |].
  intros ->. contradiction.
Qed.

(** X1: the whole result of the stage depends on the inputs only through
    the sanitized values of the four tracked species and the sanitized
    phase ratio: two calls that agree on those return the same two maps.
    So an entry under any other key, in any of the three maps, has no
    effect at all. *)
Theorem simulate_depends_on_sanitized aq aq' org org' p p' Dv Dv' :
  same_tracked aq aq' -> same_tracked org org' -> same_tracked Dv Dv' ->
  R_safe p == R_safe p' ->
  simulate_sx_stage aq org p Dv = simulate_sx_stage aq' org' p' Dv' /\
  (forall k v v' w, k ∉ targetElements ->
     simulate_sx_stage (<[k := v]> aq) (<[k := v']> org) p (<[k := w]> Dv)
     = simulate_sx_stage aq org p Dv).
Proof.
  intros Ha Ho Hd Hp. split.
  - now apply simulate_agree.
  - intros k v v' w Hk.
    apply simulate_agree; try reflexivity;
      now apply same_tracked_insert_untracked.
Qed.

Lemma simulate_depends_on_sanitized_witness :
  same_tracked (<[ "Pr"%string := Fin 3 ]> (Nd_only (-10))) no_feed /\
  same_tracked no_feed no_feed /\ same_tracked (Nd_only 1) (Nd_only 1) /\
  R_safe (Fin (-2)) == R_safe (Fin 0.0001) /\
  simulate_sx_stage (<[ "Pr"%string := Fin 3 ]> (Nd_only (-10))) no_feed (Fin (-2)) (Nd_only 1)
  = simulate_sx_stage no_feed no_feed 0.0001 (Nd_only 1).
Proof.
  assert (Ha : same_tracked (<[ "Pr"%string := Fin 3 ]> (Nd_only (-10))) no_feed).
  { intros s Hs. repeat (apply elem_of_cons in Hs as [-> | Hs]);
      [reflexivity .. | inversion Hs]. }
  assert (Hp : R_safe (Fin (-2)) == R_safe (Fin 0.0001)) by reflexivity.
  split; [exact Ha |]. split; [apply same_tracked_refl |].
  split; [apply same_tracked_refl |]. split; [exact Hp |].
  exact (proj1 (simulate_depends_on_sanitized _ _ _ _ _ _ _ _
                  Ha (same_tracked_refl _) (same_tracked_refl _) Hp)).
Defined.

(** X2: the phase ratio is floored at 0.0001 and defaulted to 1: a [NaN]
    ratio gives the result of ratio 1, and any ratio up to 0.0001 (zero and
    negative ratios included) gives the result of ratio 0.0001. *)
Theorem phase_ratio_floor aq org Dv (q : Q) :
  q <= 0.0001 ->
  simulate_sx_stage aq org (Fin q) Dv = simulate_sx_stage aq org 0.0001 Dv /\
  simulate_sx_stage aq org NaN Dv = simulate_sx_stage aq org 1 Dv.
Proof.
  intros Hq. split; apply simulate_agree; try apply same_tracked_refl.
  - unfold R_safe. rewrite (Q.max_l _ _ Hq). reflexivity.
  - reflexivity.
Qed.

Lemma phase_ratio_floor_witness :
  0 <= 0.0001 /\
  simulate_sx_stage (Nd_only 10) no_feed 0 (Nd_only 1)
  = simulate_sx_stage (Nd_only 10) no_feed 0.0001 (Nd_only 1).
Proof.
  assert (H : 0 <= 0.0001) by discriminate.
  split; [exact H |].
  exact (proj1 (phase_ratio_floor (Nd_only 10) no_feed (Nd_only 1) 0 H)).
Defined.

(** X3: an entry that is [NaN], zero or negative counts as a missing one,
    in each of the three input maps: storing such a value under a key gives
    the same result as deleting the key. *)
Theorem nonpositive_entry_is_missing aq org p Dv k v :
  reads_as_zero v ->
  simulate_sx_stage (<[k := v]> aq) org p Dv
    = simulate_sx_stage (delete k aq) org p Dv /\
  simulate_sx_stage aq (<[k := v]> org) p Dv
    = simulate_sx_stage aq (delete k org) p Dv /\
  simulate_sx_stage aq org p (<[k := v]> Dv)
    = simulate_sx_stage aq org p (delete k Dv).
Proof.
  intros Hv.
  repeat split; apply simulate_agree;
    try apply same_tracked_refl; try reflexivity;
    now apply same_tracked_insert_zero.
Qed.

Lemma nonpositive_entry_is_missing_witness :
  reads_as_zero (Fin (-10)) /\
  simulate_sx_stage (<[ "Nd"%string := Fin (-10) ]> (Nd_only 4)) no_feed 1 (Nd_only 1)
  = simulate_sx_stage (delete "Nd"%string (Nd_only 4)) no_feed 1 (Nd_only 1).
Proof.
  assert (H : reads_as_zero (Fin (-10))) by (simpl; discriminate).
  split; [exact H |].
  exact (proj1 (nonpositive_entry_is_missing (Nd_only 4) no_feed 1 (Nd_only 1)
                  "Nd"%string (Fin (-10)) H)).
Defined.

(** X4: the species do not interact: changing the entries of one key in
    the three input maps leaves the outputs of every other species as they
    were. *)
Theorem other_species_unchanged aq org p Dv k (v v' w : number) s :
  k <> s ->
  let r := simulate_sx_stage aq org p Dv in
  let r' := simulate_sx_stage (<[k := v]> aq) (<[k := v']> org) p (<[k := w]> Dv) in
  aqOut r' !! s = aqOut r !! s /\ orgOut r' !! s = orgOut r !! s.
Proof.
  intros Hne r r'. subst r r'.
  rewrite !simulate_aqOut, !simulate_orgOut.
  case_decide; [| split; reflexivity].
  unfold C_out_org, C_out_aq, mass_in, C_in_aq, C_in_org, D_s.
  rewrite !lookup_insert_ne by exact Hne. split; reflexivity.
Qed.

Lemma other_species_unchanged_witness :
  "Nd"%string <> "Th"%string /\
  aqOut (simulate_sx_stage (<[ "Nd"%string := Fin 7 ]> (Nd_only 5))
           (<[ "Nd"%string := Fin 1 ]> no_feed) 1 (<[ "Nd"%string := Fin 2 ]> (Nd_only 1)))
    !! "Th"%string
  = aqOut (simulate_sx_stage (Nd_only 5) no_feed 1 (Nd_only 1)) !! "Th"%string.
Proof.
  assert (H : "Nd"%string <> "Th"%string) by discriminate.
  split; [exact H |].
  exact (proj1 (other_species_unchanged (Nd_only 5) no_feed 1 (Nd_only 1)
                  "Nd"%string (Fin 7) (Fin 1) (Fin 2) "Th"%string H)).
Defined.

(** ** The optimizer: the setpoint and the target *)

Lemma half_unit_2 : (1 # 2) / pow10 2 == 0.005.
Proof. reflexivity. Qed.

Lemma round2_error x : Qabs (round_dp 2 x - x) <= 0.005.
Proof.
  destruct (round_dp_nearest 2 x) as [_ H]. now rewrite half_unit_2 in H.
Qed.

Lemma setpoint_near_midpoint rnd cur tgt det :
  exists n,
    new_pH_setpoint (prescriptive_setpoint_optimizer rnd cur tgt det) = Fin n /\
    Qabs (n - (current_of cur + target_of tgt) / 2) <= 0.005.
Proof.
  rewrite optimizer_setpoint. eexists. split; [reflexivity |].
  pose proof (round2_error
    (current_of cur + (target_of tgt - current_of cur) * 0.5)) as H.
  apply Qabs_Qle_condition in H. apply Qabs_Qle_condition.
  set (r := round_dp 2 _) in *.
  setoid_replace ((current_of cur + target_of tgt) / 2)
    with (current_of cur + (target_of tgt - current_of cur) * 0.5)
    using relation Qeq by field.
  exact H.
Qed.

Lemma square_nonneg (x : Q) : 0 <= x ^ 2.
Proof. change (x ^ 2) with (x * x). nra. Qed.

Lemma distance_halved rnd cur tgt det :
  exists m,
    new_pH_setpoint (prescriptive_setpoint_optimizer rnd cur tgt det) = Fin m /\
    Qabs (m - target_of tgt)
      <= (1 # 2) * Qabs (current_of cur - target_of tgt) + 0.005.
Proof.
  destruct (setpoint_near_midpoint rnd cur tgt det) as (m & Hm & Hd).
  exists m. split; [exact Hm |].
  apply Qabs_Qle_condition in Hd.
  assert (Hmid : (current_of cur + target_of tgt) / 2
                 == (1 # 2) * current_of cur + (1 # 2) * target_of tgt) by field.
  rewrite Hmid in Hd. apply Qabs_Qle_condition.
  apply (Qabs_case (current_of cur - target_of tgt)); intros Hs; lra.
Qed.

(** ** The compliance check: order, symmetry and the displayed total *)

Lemma ComplianceResult_eq (r r' : ComplianceResult) :
  total_conc_gl r = total_conc_gl r' -> is_compliant r = is_compliant r' ->
  finding r = finding r' -> r = r'.
Proof. destruct r, r'. simpl. intros -> -> ->. reflexivity. Qed.

Lemma lt_Fin_comp a a' b b' :
  a == a' -> b == b' -> (Fin a < Fin b)%js = (Fin a' < Fin b')%js.
Proof. intros Ea Eb. simpl. now rewrite Ea, Eb. Qed.

Lemma compliance_agree th th' u u' l l' :
  clamp0 (Some th) + clamp0 (Some u) == clamp0 (Some th') + clamp0 (Some u') ->
  limit_of l == limit_of l' ->
  check_th_u_compliance th u l = check_th_u_compliance th' u' l'.
Proof.
  intros Et El.
  assert (Hf : is_compliant (check_th_u_compliance th u l)
               = is_compliant (check_th_u_compliance th' u' l'))
    by (rewrite !compliance_flag; now apply lt_Fin_comp).
  apply ComplianceResult_eq.
  - rewrite !compliance_total. f_equal. now apply round_dp_comp.
  - exact Hf.
  - rewrite !compliance_finding, Hf. reflexivity.
Qed.

(** X12: the check treats thorium and uranium alike: exchanging the two
    concentrations gives the same result, field by field. *)
Theorem compliance_symmetric thConc uConc limit :
  check_th_u_compliance thConc uConc limit
  = check_th_u_compliance uConc thConc limit.
Proof.
  apply compliance_agree; [| reflexivity].
  set (a := clamp0 (Some thConc)). set (b := clamp0 (Some uConc)). ring.
Qed.

(** X13: lower concentrations or a looser limit never turn a compliant
    stream into a non-compliant one: if the check passes, it still passes
    after the sanitized concentrations decrease and the sanitized limit
    increases. *)
Theorem compliance_monotone thConc thConc' uConc uConc' limit limit' :
  clamp0 (Some thConc') <= clamp0 (Some thConc) ->
  clamp0 (Some uConc') <= clamp0 (Some uConc) ->
  limit_of limit <= limit_of limit' ->
  is_compliant (check_th_u_compliance thConc uConc limit) = true ->
  is_compliant (check_th_u_compliance thConc' uConc' limit') = true.
Proof.
  intros Ht Hu Hl Hc.
  apply compliance_flag_iff in Hc. apply compliance_flag_iff. lra.
Qed.

Lemma compliance_monotone_witness :
  clamp0 (Some (Fin (-1))) <= clamp0 (Some (Fin 0.04)) /\
  clamp0 (Some (Fin 0.01)) <= clamp0 (Some (Fin 0.05)) /\
  limit_of (Some (Fin 0.1)) <= limit_of (Some (Fin 0.2)) /\
  is_compliant (check_th_u_compliance 0.04 0.05 (Some (Fin 0.1))) = true /\
  is_compliant (check_th_u_compliance (-1) 0.01 (Some (Fin 0.2))) = true.
Proof.
  assert (H1 : clamp0 (Some (Fin (-1))) <= clamp0 (Some (Fin 0.04)))
    by (vm_compute; discriminate).
  assert (H2 : clamp0 (Some (Fin 0.01)) <= clamp0 (Some (Fin 0.05)))
    by (vm_compute; discriminate).
  assert (H3 : limit_of (Some (Fin 0.1)) <= limit_of (Some (Fin 0.2)))
    by (vm_compute; discriminate).
  assert (H4 : is_compliant (check_th_u_compliance 0.04 0.05 (Some (Fin 0.1))) = true)
    by reflexivity.
  repeat (split; [assumption |]).
  exact (compliance_monotone 0.04 (-1) 0.05 0.01 (Some (Fin 0.1)) (Some (Fin 0.2))
           H1 H2 H3 H4).
Defined.



(** ** The dashboard: from the stage to the compliance check *)

Lemma Th_U_tracked : "Th"%string ∈ targetElements /\ "U"%string ∈ targetElements.
Proof.
  split; repeat first [apply list_elem_of_here | apply list_elem_of_further].
Qed.

(** X16: what a run's results depend on.  Changing the feed or the
    coefficient of a species other than thorium and uranium leaves the
    compliance result of the next run unchanged, whatever the random draws;
    and changing any feed or coefficient leaves the optimizer's result
    unchanged for the same draw. *)
Theorem run_independence rnd rnd' st k v :
  k <> "Th"%string -> k <> "U"%string ->
  App.complianceResults (App.runSimulation rnd' (App.updateAqIn k v st))
    = App.complianceResults (App.runSimulation rnd st) /\
  App.complianceResults (App.runSimulation rnd' (App.updateD k v st))
    = App.complianceResults (App.runSimulation rnd st) /\
  (forall k' v',
     App.optimizationResults (App.runSimulation rnd (App.updateAqIn k' v' st))
       = App.optimizationResults (App.runSimulation rnd st) /\
     App.optimizationResults (App.runSimulation rnd (App.updateD k' v' st))
       = App.optimizationResults (App.runSimulation rnd st)).
Proof.
  intros HTh HU. destruct Th_U_tracked as [TTh TU].
  unfold App.runSimulation, App.updateAqIn, App.updateD. cbv zeta.
  cbn [App.complianceResults App.optimizationResults App.aqIn App.orgIn
       App.phaseRatio App.dValues App.regLimit App.currentPH App.targetPH].
  split; [| split; [| intros k' v'; split; reflexivity]].
  - rewrite !simulate_aqOut, !decide_True by assumption.
    unfold C_out_aq, mass_in, C_in_aq, C_in_org, D_s.
    rewrite !lookup_insert_ne by assumption. reflexivity.
  - rewrite !simulate_aqOut, !decide_True by assumption.
    unfold C_out_aq, mass_in, C_in_aq, C_in_org, D_s.
    rewrite !lookup_insert_ne by assumption. reflexivity.
Qed.

Lemma run_independence_witness :
  "Nd"%string <> "Th"%string /\ "Nd"%string <> "U"%string /\
  App.complianceResults (App.runSimulation 0.9 (App.updateAqIn "Nd" 50 App.initial))
    = App.complianceResults (App.runSimulation 0.1 App.initial).
Proof.
  assert (H1 : "Nd"%string <> "Th"%string) by discriminate.
  assert (H2 : "Nd"%string <> "U"%string) by discriminate.
  split; [exact H1 |]. split; [exact H2 |].
  exact (proj1 (run_independence 0.1 0.9 App.initial "Nd" 50 H1 H2)).
Defined.

(** ** The dashboard: snapshots and the history *)

Lemma has_results_after_run rnd st : has_results (App.runSimulation rnd st).
Proof. repeat split; eexists; reflexivity. Qed.

Lemma capture_without_results now time st :
  ~ has_results st -> App.captureSnapshot now time st = st.
Proof.
  intros H. unfold App.captureSnapshot, has_results in *.
  destruct (App.simulationResults st), (App.complianceResults st),
           (App.optimizationResults st); try reflexivity.
  exfalso. apply H. repeat split; eexists; reflexivity.
Qed.

Lemma capture_with_results now time st :
  has_results st ->
  exists e,
    App.history (App.captureSnapshot now time st) = e :: App.history st /\
    Hist.id e = now /\ Hist.timestamp e = time /\
    has_results (App.captureSnapshot now time st).
Proof.
  intros ([sim Hs] & [comp Hc] & [opt Ho]).
  unfold App.captureSnapshot, has_results. rewrite Hs, Hc, Ho.
  eexists. cbn. split; [reflexivity |]. split; [reflexivity |].
  split; [reflexivity |]. repeat split; eexists; reflexivity.
Qed.

Lemma handle_other st e :
  is_snapshot e = false ->
  App.history (handle st e) = App.history st /\
  (has_results st -> has_results (handle st e)).
Proof.
  destruct e; intros He; try discriminate He; (split; [reflexivity |]);
    intros H; try exact H.
  apply has_results_after_run.
Qed.

(** X17: a snapshot records the run before it, and only a run makes a
    snapshot possible.  After a run, capturing a snapshot puts one new
    entry at the front of the history, carrying the given id and time, the
    current feed, phase ratio and pH values, and the total, the compliance
    flag and the efficiency of that run; while any of the three results is
    missing, as in the initial state, capturing changes nothing. *)
Theorem snapshot_records_run rnd now time st :
  let st1 := App.runSimulation rnd st in
  let st2 := App.captureSnapshot now time st1 in
  (exists e comp opt,
     App.history st2 = e :: App.history st /\
     App.complianceResults st1 = Some comp /\
     App.optimizationResults st1 = Some opt /\
     Hist.id e = now /\ Hist.timestamp e = time /\
     Hist.inputs e =
       {| Hist.aqIn := App.aqIn st; Hist.phaseRatio := App.phaseRatio st;
          Hist.currentPH := App.currentPH st; Hist.targetPH := App.targetPH st |} /\
     Hist.outputs e =
       {| Hist.th_u_total := total_conc_gl comp;
          Hist.is_compliant := is_compliant comp;
          Hist.efficiency := predicted_efficiency opt |}) /\
  (forall st0, ~ has_results st0 -> App.captureSnapshot now time st0 = st0) /\
  App.captureSnapshot now time App.initial = App.initial.
Proof.
  intros st1 st2. split; [| split].
  - subst st2 st1. do 3 eexists. cbn.
    repeat (split; [reflexivity |]). reflexivity.
  - intros st0. apply capture_without_results.
  - reflexivity.
Qed.

Lemma snapshot_records_run_witness :
  ~ has_results App.initial /\
  App.captureSnapshot 17 "12:00:00" App.initial = App.initial.
Proof.
  assert (H : ~ has_results App.initial)
    by (intros ([x Hx] & _); discriminate Hx).
  split; [exact H |].
  exact (proj1 (proj2 (snapshot_records_run 0 17 "12:00:00" App.initial))
           App.initial H).
Defined.

(** X18: the history only grows, one entry per snapshot.  Whatever
    handlers, setters and runs happen, in whatever order, the earlier
    history stays as the tail of the later one and gains at most one entry
    per captured snapshot; and once the results have been computed they
    stay computed, so that every captured snapshot adds exactly one
    entry. *)
Theorem history_only_grows (evs : list event) (st : App.State) :
  let st' := foldl handle st evs in
  let snapshots := length (filter (fun e => is_snapshot e = true) evs) in
  App.history st `suffix_of` App.history st' /\
  (length (App.history st') <= length (App.history st) + snapshots)%nat /\
  (has_results st ->
   has_results st' /\
   length (App.history st') = (length (App.history st) + snapshots)%nat).
Proof.
  cbv zeta. revert st. induction evs as [|e evs IH]; intros st.
  - cbn. split; [reflexivity |]. split; [lia |]. intros H. split; [exact H | lia].
  - cbn [foldl]. destruct (IH (handle st e)) as (Hsuf & Hlen & Hres).
    rewrite filter_cons. destruct (is_snapshot e) eqn:He.
    + rewrite decide_True by reflexivity. cbn [length].
      destruct e; try discriminate He. cbn [handle] in *.
      assert (Hcase : has_results st \/ ~ has_results st).
      { unfold has_results.
        destruct (App.simulationResults st), (App.complianceResults st),
                 (App.optimizationResults st);
          first [ left; repeat split; eexists; reflexivity
                | right; intros (H1 & H2 & H3);
                  first [ destruct H1 as [? H1]; discriminate H1
                        | destruct H2 as [? H2]; discriminate H2
                        | destruct H3 as [? H3]; discriminate H3 ] ]. }
      destruct Hcase as [Hyes|Hno].
      * destruct (capture_with_results now time st Hyes) as (x & Hx & _ & _ & Hr).
        rewrite Hx in *. cbn [length] in *.
        split; [etrans; [apply suffix_cons_r; reflexivity | exact Hsuf] |].
        split; [lia |]. intros _. destruct (Hres Hr) as [Hr' Hl].
        split; [exact Hr' | lia].
      * rewrite (capture_without_results now time st Hno) in *.
        split; [exact Hsuf |]. split; [lia |]. intros H. contradiction.
    + rewrite decide_False by discriminate.
      destruct (handle_other st e He) as [Hh Hr]. rewrite Hh in *.
      split; [exact Hsuf |]. split; [exact Hlen |].
      intros H. exact (Hres (Hr H)).
Qed.

Lemma history_only_grows_witness :
  has_results (App.runSimulation 0 App.initial) /\
  length (App.history
            (foldl handle (App.runSimulation 0 App.initial)
               [CaptureSnapshot 1 "a"; UpdateAqIn "Nd" 7; RunSimulation 0.5;
                CaptureSnapshot 2 "b"]))
  = 2%nat.
Proof.
  assert (H : has_results (App.runSimulation 0 App.initial))
    by apply has_results_after_run.
  split; [exact H |].
  exact (proj2 (proj2 (proj2
    (history_only_grows
       [CaptureSnapshot 1 "a"; UpdateAqIn "Nd" 7; RunSimulation 0.5;
        CaptureSnapshot 2 "b"] (App.runSimulation 0 App.initial))) H)).
Defined.

(** ** The chart *)

Lemma getX_value (x : Q) :
  exists g, Chart.getX (Fin x) = Fin g /\ g == 50 + (1020 # 7) * x.
Proof. eexists. split; [reflexivity | field]. Qed.

Lemma getY_value (e : Q) :
  exists g, Chart.getY (Fin e) = Fin g /\ g == 240 - 200 * e.
Proof. eexists. split; [reflexivity | field]. Qed.

Lemma clampPH_value (p : Q) :
  Chart.clampPH (Fin p) = Fin (Qmax 0.0 (Qmin 3.5 p)).
Proof. reflexivity. Qed.

Lemma clampPH_bounds (p : Q) : 0 <= Qmax 0.0 (Qmin 3.5 p) <= 3.5.
Proof.
  pose proof (Q.le_max_l 0.0 (Qmin 3.5 p)) as Hlo.
  split; [lra |].
  apply Q.max_lub; [discriminate | apply Q.le_min_l].
Qed.

Lemma chart_eff_value (c t : Q) :
  Math_max 0 (0.8 - 0.2 * Math_pow (Fin c - Fin t) 2)%js
  = Fin (Qmax 0 (0.8 - 0.2 * (c - t) ^ 2)).
Proof. reflexivity. Qed.

Lemma chart_eff_bounds (c t : Q) : 0 <= Qmax 0 (0.8 - 0.2 * (c - t) ^ 2) <= 0.8.
Proof.
  pose proof (square_nonneg (c - t)).
  split; [apply Q.le_max_l |]. apply Q.max_lub; lra.
Qed.

Lemma chart_sanitized cur rec tgt :
  Chart.EfficiencyChart cur rec tgt
  = Chart.EfficiencyChart (Fin (current_of cur)) (Fin (current_of rec))
      (Fin (target_of (Some tgt))).
Proof. destruct cur, rec, tgt; reflexivity. Qed.

(** X19: the markers never leave the plot.  For every current,
    recommended and target pH, [NaN] included, the three horizontal
    positions lie between the left edge 50 and the right edge 560 of the
    plot area, and the two marker heights lie between 80, the height of
    efficiency 0.8, and the bottom edge 240. *)
Theorem markers_inside_plot currentPH recommendedPH targetOptimalPH :
  let pts := Chart.EfficiencyChart currentPH recommendedPH targetOptimalPH in
  exists xc yc xr yr xt,
    Chart.cxCur pts = Fin xc /\ Chart.cyCur pts = Fin yc /\
    Chart.cxRec pts = Fin xr /\ Chart.cyRec pts = Fin yr /\
    Chart.cxTarget pts = Fin xt /\
    50 <= xc <= 560 /\ 50 <= xr <= 560 /\ 50 <= xt <= 560 /\
    80 <= yc <= 240 /\ 80 <= yr <= 240.
Proof.
  intros pts. subst pts. rewrite chart_sanitized.
  set (c := current_of currentPH). set (r := current_of recommendedPH).
  set (t := target_of (Some targetOptimalPH)).
  unfold Chart.EfficiencyChart. cbn [Number_isNaN]. cbv zeta.
  cbn [Chart.cxCur Chart.cyCur Chart.cxRec Chart.cyRec Chart.cxTarget].
  rewrite !clampPH_value, !chart_eff_value.
  destruct (getX_value (Qmax 0.0 (Qmin 3.5 c))) as (xc & -> & Exc).
  destruct (getX_value (Qmax 0.0 (Qmin 3.5 r))) as (xr & -> & Exr).
  destruct (getX_value (Qmax 0.0 (Qmin 3.5 t))) as (xt & -> & Ext).
  destruct (getY_value (Qmax 0 (0.8 - 0.2 * (c - t) ^ 2))) as (yc & -> & Eyc).
  destruct (getY_value (Qmax 0 (0.8 - 0.2 * (r - t) ^ 2))) as (yr & -> & Eyr).
  pose proof (clampPH_bounds c). pose proof (clampPH_bounds r).
  pose proof (clampPH_bounds t).
  pose proof (chart_eff_bounds c t). pose proof (chart_eff_bounds r t).
  exists xc, yc, xr, yr, xt. repeat (split; [reflexivity |]).
  rewrite Exc, Exr, Ext, Eyc, Eyr. repeat split; lra.
Qed.

Lemma chart_current_eff cur rec tgt :
  Chart.currentEff (Chart.EfficiencyChart cur rec tgt)
  = Fin (Qmax 0 (0.8 - 0.2 * (current_of cur - target_of (Some tgt)) ^ 2)).
Proof. rewrite chart_sanitized. reflexivity. Qed.

Lemma chart_rec_eff cur rec tgt :
  Chart.recEff (Chart.EfficiencyChart cur rec tgt)
  = Fin (Qmax 0 (0.8 - 0.2 * (current_of rec - target_of (Some tgt)) ^ 2)).
Proof. rewrite chart_sanitized. reflexivity. Qed.

Lemma square_le_of_abs (a b : Q) : Qabs a <= Qabs b -> a ^ 2 <= b ^ 2.
Proof.
  change (a ^ 2) with (a * a). change (b ^ 2) with (b * b).
  intros H. apply Qabs_Qle_condition in H.
  revert H. apply (Qabs_case b); intros Hb H; nra.
Qed.

(** X21: the recommended marker is never below the current one.  When the
    chart is given the optimizer's setpoint as the recommended pH, as the
    dashboard does, and the sanitized current pH is at least 0.01 away from
    the target, the efficiency at the recommended marker is at least that
    at the current marker, so the recommended marker is drawn at the same
    height or higher. *)
Theorem recommended_marker_not_lower rnd currentPH targetPH det :
  0.01 <= Qabs (current_of currentPH - target_of (Some targetPH)) ->
  let rec :=
    new_pH_setpoint
      (prescriptive_setpoint_optimizer rnd currentPH (Some targetPH) det) in
  let pts := Chart.EfficiencyChart currentPH rec targetPH in
  exists ec er yc yr,
    Chart.currentEff pts = Fin ec /\ Chart.recEff pts = Fin er /\
    Chart.cyCur pts = Fin yc /\ Chart.cyRec pts = Fin yr /\
    ec <= er /\ yr <= yc.
Proof.
  intros Hfar rec pts. subst pts.
  destruct (distance_halved rnd currentPH (Some targetPH) det) as (m & Hm & Hd).
  fold rec in Hm.
  assert (Hsq : (m - target_of (Some targetPH)) ^ 2
                <= (current_of currentPH - target_of (Some targetPH)) ^ 2)
    by (apply square_le_of_abs; lra).
  assert (Hle : Qmax 0 (0.8 - 0.2 * (current_of currentPH - target_of (Some targetPH)) ^ 2)
                <= Qmax 0 (0.8 - 0.2 * (m - target_of (Some targetPH)) ^ 2))
    by (apply Q.max_le_compat_l; lra).
  rewrite chart_current_eff, chart_rec_eff, chart_sanitized, Hm.
  cbn [current_of].
  unfold Chart.EfficiencyChart. cbn [Number_isNaN]. cbv zeta.
  cbn [Chart.cyCur Chart.cyRec]. rewrite !chart_eff_value.
  destruct (getY_value
    (Qmax 0 (0.8 - 0.2 * (current_of currentPH - target_of (Some targetPH)) ^ 2)))
    as (yc & -> & Eyc).
  destruct (getY_value
    (Qmax 0 (0.8 - 0.2 * (m - target_of (Some targetPH)) ^ 2)))
    as (yr & -> & Eyr).
  do 4 eexists. do 4 (split; [reflexivity |]).
  split; [exact Hle |]. rewrite Eyc, Eyr. lra.
Qed.

Lemma recommended_marker_not_lower_witness :
  0.01 <= Qabs (current_of 1.0 - target_of (Some (Fin 1.8))) /\
  exists ec er,
    Chart.currentEff
      (Chart.EfficiencyChart 1.0
         (new_pH_setpoint
            (prescriptive_setpoint_optimizer 0 1.0 (Some (Fin 1.8)) None)) 1.8)
      = Fin ec /\
    Chart.recEff
      (Chart.EfficiencyChart 1.0
         (new_pH_setpoint
            (prescriptive_setpoint_optimizer 0 1.0 (Some (Fin 1.8)) None)) 1.8)
      = Fin er /\
    ec <= er.
Proof.
  assert (H : 0.01 <= Qabs (current_of 1.0 - target_of (Some (Fin 1.8))))
    by (vm_compute; discriminate).
  split; [exact H |].
  destruct (recommended_marker_not_lower 0 1.0 1.8 None H)
    as (ec & er & yc & yr & Hc & Hr & _ & _ & Hle & _).
  exists ec, er. split; [exact Hc |]. split; [exact Hr | exact Hle].
Defined.

(** ** The input field *)

(** X22: what the input field flags.  An empty field (value [NaN]) is
    never an error, whatever the bounds; a value is flagged as below the
    minimum exactly when it is a number strictly below a numeric minimum,
    and as above the maximum exactly when it is a number strictly above a
    numeric maximum; the field is in error exactly when one of the two
    flags is set, the message is empty exactly when it is not in error, and
    the minimum message takes precedence. *)
Theorem input_field_flags value min max :
  let f := InputField value min max in
  (value = NaN -> isError f = false /\ errorMsg f = NoMessage) /\
  (isBelowMin f = true <->
     exists v m, value = Fin v /\ min = Some (Fin m) /\ v < m) /\
  (isAboveMax f = true <->
     exists v m, value = Fin v /\ max = Some (Fin m) /\ m < v) /\
  (isError f = true <-> isBelowMin f = true \/ isAboveMax f = true) /\
  (errorMsg f = NoMessage <-> isError f = false) /\
  (isBelowMin f = true -> errorMsg f = MinMessage (default NaN min)).
Proof.
  intros f. subst f. unfold InputField. cbv zeta.
  cbn [isError errorMsg isBelowMin isAboveMax].
  split; [intros ->; destruct min, max; split; reflexivity |].
  split.
  { destruct value as [|v], min as [[|m]|]; cbn [Number_isNaN negb andb];
      try (split; [discriminate | intros (? & ? & ? & ? & ?); congruence]).
    rewrite lt_Fin. split.
    - intros H. exists v, m. auto.
    - intros (v' & m' & [= ->] & [= ->] & H). exact H. }
  split.
  { destruct value as [|v], max as [[|m]|]; cbn [Number_isNaN negb andb];
      try (split; [discriminate | intros (? & ? & ? & ? & ?); congruence]).
    unfold gt. rewrite lt_Fin. split.
    - intros H. exists v, m. auto.
    - intros (v' & m' & [= ->] & [= ->] & H). exact H. }
  split; [apply orb_true_iff |].
  split.
  - destruct (match min with Some _ => _ | None => _ end),
             (match max with Some _ => _ | None => _ end);
      cbn; split; intros H; congruence.
  - intros ->. reflexivity.
Qed.

Lemma input_field_flags_witness :
  isBelowMin (InputField (-3) (Some (Fin 0)) None) = true /\
  errorMsg (InputField (-3) (Some (Fin 0)) None) = MinMessage 0.
Proof.
  assert (H : isBelowMin (InputField (-3) (Some (Fin 0)) None) = true) by reflexivity.
  split; [exact H |].
  exact (proj2 (proj2 (proj2 (proj2 (proj2
    (input_field_flags (-3) (Some (Fin 0)) None))))) H).
Defined.

Lemma same_tracked_insert_both m k v w :
  reads_as_zero v -> reads_as_zero w ->
  same_tracked (<[k := v]> m) (<[k := w]> m).
Proof.
  intros Hv Hw s _. destruct (decide (k = s)) as [->|Hne].
  - rewrite !lookup_insert_eq.
    now rewrite (clamp0_reads_as_zero v), (clamp0_reads_as_zero w).
  - rewrite !lookup_insert_ne by exact Hne. reflexivity.
Qed.

(** X23: a feed or coefficient that its input field flags as below the
    minimum 0 is used as 0.  If the field, with minimum 0, flags the value,
    then storing it with [updateAqIn] or [updateD] and running the
    simulation gives the same stage and compliance results as storing 0. *)
Theorem flagged_negative_runs_as_zero value max rnd st k :
  isBelowMin (InputField value (Some (Fin 0)) max) = true ->
  let run upd v := App.runSimulation rnd (upd k v st) in
  App.simulationResults (run App.updateAqIn value)
    = App.simulationResults (run App.updateAqIn (Fin 0)) /\
  App.complianceResults (run App.updateAqIn value)
    = App.complianceResults (run App.updateAqIn (Fin 0)) /\
  App.simulationResults (run App.updateD value)
    = App.simulationResults (run App.updateD (Fin 0)) /\
  App.complianceResults (run App.updateD value)
    = App.complianceResults (run App.updateD (Fin 0)).
Proof.
  intros Hflag run. subst run.
  assert (Hv : reads_as_zero value).
  { destruct value as [|v]; [exact I |].
    cbn in Hflag. apply lt_Fin in Hflag. simpl. lra. }
  assert (H0 : reads_as_zero (Fin 0)) by (simpl; lra).
  unfold App.runSimulation, App.updateAqIn, App.updateD. cbv zeta.
  cbn [App.simulationResults App.complianceResults App.aqIn App.orgIn
       App.phaseRatio App.dValues App.regLimit].
  assert (Ea : simulate_sx_stage (<[k := value]> (App.aqIn st)) (App.orgIn st)
                 (App.phaseRatio st) (App.dValues st)
               = simulate_sx_stage (<[k := Fin 0]> (App.aqIn st)) (App.orgIn st)
                   (App.phaseRatio st) (App.dValues st)).
  { apply simulate_agree; try apply same_tracked_refl; try reflexivity.
    now apply same_tracked_insert_both. }
  assert (Ed : simulate_sx_stage (App.aqIn st) (App.orgIn st) (App.phaseRatio st)
                 (<[k := value]> (App.dValues st))
               = simulate_sx_stage (App.aqIn st) (App.orgIn st) (App.phaseRatio st)
                   (<[k := Fin 0]> (App.dValues st))).
  { apply simulate_agree; try apply same_tracked_refl; try reflexivity.
    now apply same_tracked_insert_both. }
  rewrite Ea, Ed. repeat split; reflexivity.
Qed.

Lemma flagged_negative_runs_as_zero_witness :
  isBelowMin (InputField (-3) (Some (Fin 0)) None) = true /\
  App.simulationResults (App.runSimulation 0 (App.updateAqIn "Th" (-3) App.initial))
  = App.simulationResults (App.runSimulation 0 (App.updateAqIn "Th" 0 App.initial)).
Proof.
  assert (H : isBelowMin (InputField (-3) (Some (Fin 0)) None) = true) by reflexivity.
  split; [exact H |].
  exact (proj1 (flagged_negative_runs_as_zero (-3) None 0 App.initial "Th" H)).
Defined.

(** ** The diagnostics modal *)

Lemma passedCount_le (results : list TestResult) :
  (passedCount results <= length results)%nat.
Proof. apply length_filter. Qed.

Lemma allPassed_iff (results : list TestResult) :
  allPassed results = true <-> Forall (fun r => passed r = true) results.
Proof.
  unfold allPassed, passedCount. rewrite Nat.eqb_eq.
  induction results as [|r rs IH].
  - split; [constructor | reflexivity].
  - rewrite filter_cons, Forall_cons. destruct (decide (passed r = true)) as [Hp|Hp].
    + cbn [length]. split.
      * intros [= H]. split; [exact Hp | now apply IH].
      * intros [_ H]. f_equal. now apply IH.
    + pose proof (length_filter (fun r => passed r = true) rs) as Hle.
      cbn [length]. split; [lia | intros [Hr _]; contradiction].
Qed.

(** X24: the diagnostics modal.  The modal reports every test as passed
    exactly when each result of the list it was given has passed; and for
    the results of [runAllTests], whatever the random draws, it shows
    15 of 15. *)
Theorem diagnostics_report random (results : list TestResult) :
  (allPassed results = true <-> passedCount results = length results) /\
  (allPassed results = true <-> Forall (fun r => passed r = true) results) /\
  passedCount (runAllTests random) = 15%nat /\
  length (runAllTests random) = 15%nat /\
  allPassed (runAllTests random) = true.
Proof.
  split; [apply Nat.eqb_eq |]. split; [apply allPassed_iff |].
  destruct (runAllTests_pass random) as [Hlen Hall].
  assert (Hok : allPassed (runAllTests random) = true) by now apply allPassed_iff.
  split; [| split; [exact Hlen | exact Hok]].
  unfold allPassed in Hok. apply Nat.eqb_eq in Hok. now rewrite Hok.
Qed.
